(** * TFST Carrier Portal: the browser scripts and their real-time behaviour

    A shallow embedding of the three browser scripts of the portal,

    - [app/static/js/shipments.js]  (class [TFSTShipments]),
    - [app/static/js/websocket.js]  (class [TFSTWebSocket]),
    - [app/static/js/dashboard.js]  (class [TFSTDashboard]),

    over an explicit model of what they act on: the document (table rows,
    check boxes, alerts, toasts, modals), the timer queue of the event
    loop, the pending [$.ajax] requests and the socket's outbox.

    Conventions.
    - Time is a [nat] of milliseconds; [setTimeout] stores a timer with its
      due time, [advance_to] runs the due timers in order.
    - A handler that can raise a JavaScript exception returns the page as
      the exception leaves it, together with a [completion].
    - Strings are ASCII; [toLowerCase] maps [A-Z] to [a-z].
    - Shipment ids are plain identifiers (no quote or backslash), so the
      attribute selector [[data-shipment-id="..."]] is string equality. *)

From Stdlib Require Import Ascii String List Arith Bool Lia Sorted.
From stdpp Require Import base gmap list strings.

Local Open Scope string_scope.
Local Open Scope list_scope.

(** ** JavaScript string primitives used by the scripts *)

Module Js.

(** [String.prototype.toLowerCase], on ASCII. *)
Definition lower_ascii (c : ascii) : ascii :=
  let n := nat_of_ascii c in
  if (65 <=? n)%nat && (n <=? 90)%nat then ascii_of_nat (n + 32) else c.

Fixpoint toLowerCase (s : string) : string :=
  match s with
  | EmptyString => EmptyString
  | String c s' => String (lower_ascii c) (toLowerCase s')
  end.

(** [s.replace(' ', '-')]: a string pattern replaces the first match only. *)
Fixpoint replace_space (s : string) : string :=
  match s with
  | EmptyString => EmptyString
  | String c s' =>
      if Ascii.eqb c " "%char then String "-"%char s'
      else String c (replace_space s')
  end.

(** Interpolation [`${v}`] of a possibly undefined property. *)
Definition interp (v : option string) : string :=
  match v with
  | Some s => s
  | None => "undefined"
  end.

(** Truthiness of a possibly undefined string property: [undefined] and
    the empty string are falsy. *)
Definition truthy (v : option string) : bool :=
  match v with
  | Some EmptyString | None => false
  | Some _ => true
  end.

(** [v || fallback] on a possibly undefined string. *)
Definition or_else (v : option string) (fallback : string) : string :=
  match v with
  | Some s => if truthy v then s else fallback
  | None => fallback
  end.

(** How a handler finishes: it returns, or an exception leaves it. *)
Inductive completion :=
  | Returned
  | Threw (error : string).

Definition threw (c : completion) : bool :=
  match c with
  | Returned => false
  | Threw _ => true
  end.

End Js.

(** ** jQuery class lists *)

Module JQuery.

(** White space that separates class names. *)
Definition is_space (c : ascii) : bool :=
  let n := nat_of_ascii c in
  (n =? 32)%nat || (n =? 9)%nat || (n =? 10)%nat || (n =? 12)%nat
  || (n =? 13)%nat.

(** The class names of a space separated string, in order. [cur] is the
    name being read, reversed. *)
Fixpoint class_names_from (cur : string) (s : string) : list string :=
  match s with
  | EmptyString =>
      match cur with
      | EmptyString => []
      | _ => [String.rev cur]
      end
  | String c s' =>
      if is_space c then
        match cur with
        | EmptyString => class_names_from EmptyString s'
        | _ => String.rev cur :: class_names_from EmptyString s'
        end
      else class_names_from (String c cur) s'
  end.

Definition class_names (s : string) : list string :=
  class_names_from EmptyString s.

(** [.addClass(names)] on one element: every name not yet present is
    appended. *)
Definition add_class1 (name : string) (cl : list string) : list string :=
  if bool_decide (name ∈ cl) then cl else cl ++ [name].

Definition addClass (names : string) (cl : list string) : list string :=
  fold_left (fun acc n => add_class1 n acc) (class_names names) cl.

(** [.removeClass(name)] on one element. *)
Definition removeClass (name : string) (cl : list string) : list string :=
  filter (fun n => n ≠ name) cl.

End JQuery.

(** ** The page the scripts act on *)

Module Dom.

(** A latitude/longitude pair as the scripts print it: by interpolation
    and by [toFixed(4)]. *)
Record geo := mkGeo {
  lat : string;
  lng : string;
  lat_fixed4 : string;
  lng_fixed4 : string
}.

(** The payload of an inbound socket event. A property that is absent is
    [None]. *)
Record payload := mkPayload {
  shipment_id : string;
  current_status : option string;
  alert_message : option string;
  location : option geo
}.

(** A [<tr class="shipment-row" data-shipment-id=...>] with its
    [.status-badge]. *)
Record row := mkRow {
  row_id : string;
  row_class : list string;
  badge_class : list string;
  badge_text : string
}.

(** An [<input class="shipment-checkbox" value=...>]. *)
Record checkbox := mkCheckbox {
  cb_value : string;
  cb_checked : bool
}.

(** A [<div class="alert ...">] appended to the body. *)
Record alert := mkAlert {
  alert_class : string;
  alert_icon : option string;
  alert_body : string
}.

(** A Bootstrap toast appended to the body. *)
Record toast := mkToast {
  toast_bg : string;
  toast_html : string;
  toast_shown : bool
}.

(** An emergency modal appended to the body. *)
Record modal := mkModal {
  modal_shipment : string;
  modal_message : string;
  modal_location : option (string * string);
  modal_shown : bool
}.

(** [#shipmentDetailModal] with its [#currentStatus] and [#lastUpdated].
    [detail_shipment] is what [.data('shipment-id')] returns when it is a
    string. *)
Record detail_view := mkDetail {
  detail_visible : bool;
  detail_shipment : option string;
  currentStatus : string;
  lastUpdated : string
}.

(** A [<span class="location-display" data-shipment-id=...>]. *)
Record location_display := mkLocationDisplay {
  loc_id : string;
  loc_html : string
}.

(** What [new Audio(...).play()] does in this browser. *)
Inductive audio_env :=
  | AudioUnsupported
  | AudioBlocked
  | AudioPlays.

(** The closures the scripts hand to [setTimeout]. *)
Inductive callback :=
  | CloseLastAlert
      (* () => $('.alert').last().alert('close') *)
  | RemoveRowClass (targets : list nat) (name : string).
      (* () => row.removeClass(name), [row] holding the rows at [targets] *)

(** The body of the status-update POST. *)
Record update_data := mkUpdateData {
  status : string;
  notes : string
}.

(** A [$.ajax] request that has been sent and not yet answered. *)
Record request := mkRequest {
  req_shipment : string;
  req_data : update_data
}.

Record page := mkPage {
  now : nat;
  timers : list (nat * callback);
  xhr : list request;
  reload_requested : bool;
  rows : list row;
  checkboxes : list checkbox;
  selectAll_checked : bool;
  selectAll_indeterminate : bool;
  selectedCount : nat;
  bulkActionsPanel : bool;
  statusUpdateModal : bool;
  selectedShipments : gset string;
  alerts : list alert;
  toasts : list toast;
  modals : list modal;
  detail : detail_view;
  locations : list location_display;
  triggered : list (string * option payload);
  console : list string;
  audio : audio_env;
  sounds : nat
}.

(** Field updates. *)
Definition set_now (v : nat) (p : page) : page :=
  mkPage v (timers p) (xhr p) (reload_requested p) (rows p) (checkboxes p)
    (selectAll_checked p) (selectAll_indeterminate p) (selectedCount p)
    (bulkActionsPanel p) (statusUpdateModal p) (selectedShipments p)
    (alerts p) (toasts p) (modals p) (detail p) (locations p) (triggered p)
    (console p) (audio p) (sounds p).
Definition set_timers (v : list (nat * callback)) (p : page) : page :=
  mkPage (now p) v (xhr p) (reload_requested p) (rows p) (checkboxes p)
    (selectAll_checked p) (selectAll_indeterminate p) (selectedCount p)
    (bulkActionsPanel p) (statusUpdateModal p) (selectedShipments p)
    (alerts p) (toasts p) (modals p) (detail p) (locations p) (triggered p)
    (console p) (audio p) (sounds p).
Definition set_xhr (v : list request) (p : page) : page :=
  mkPage (now p) (timers p) v (reload_requested p) (rows p) (checkboxes p)
    (selectAll_checked p) (selectAll_indeterminate p) (selectedCount p)
    (bulkActionsPanel p) (statusUpdateModal p) (selectedShipments p)
    (alerts p) (toasts p) (modals p) (detail p) (locations p) (triggered p)
    (console p) (audio p) (sounds p).
Definition set_reload_requested (v : bool) (p : page) : page :=
  mkPage (now p) (timers p) (xhr p) v (rows p) (checkboxes p)
    (selectAll_checked p) (selectAll_indeterminate p) (selectedCount p)
    (bulkActionsPanel p) (statusUpdateModal p) (selectedShipments p)
    (alerts p) (toasts p) (modals p) (detail p) (locations p) (triggered p)
    (console p) (audio p) (sounds p).
Definition set_rows (v : list row) (p : page) : page :=
  mkPage (now p) (timers p) (xhr p) (reload_requested p) v (checkboxes p)
    (selectAll_checked p) (selectAll_indeterminate p) (selectedCount p)
    (bulkActionsPanel p) (statusUpdateModal p) (selectedShipments p)
    (alerts p) (toasts p) (modals p) (detail p) (locations p) (triggered p)
    (console p) (audio p) (sounds p).
Definition set_checkboxes (v : list checkbox) (p : page) : page :=
  mkPage (now p) (timers p) (xhr p) (reload_requested p) (rows p) v
    (selectAll_checked p) (selectAll_indeterminate p) (selectedCount p)
    (bulkActionsPanel p) (statusUpdateModal p) (selectedShipments p)
    (alerts p) (toasts p) (modals p) (detail p) (locations p) (triggered p)
    (console p) (audio p) (sounds p).
Definition set_selectAll_checked (v : bool) (p : page) : page :=
  mkPage (now p) (timers p) (xhr p) (reload_requested p) (rows p)
    (checkboxes p) v (selectAll_indeterminate p) (selectedCount p)
    (bulkActionsPanel p) (statusUpdateModal p) (selectedShipments p)
    (alerts p) (toasts p) (modals p) (detail p) (locations p) (triggered p)
    (console p) (audio p) (sounds p).
Definition set_selectAll_indeterminate (v : bool) (p : page) : page :=
  mkPage (now p) (timers p) (xhr p) (reload_requested p) (rows p)
    (checkboxes p) (selectAll_checked p) v (selectedCount p)
    (bulkActionsPanel p) (statusUpdateModal p) (selectedShipments p)
    (alerts p) (toasts p) (modals p) (detail p) (locations p) (triggered p)
    (console p) (audio p) (sounds p).
Definition set_selectedCount (v : nat) (p : page) : page :=
  mkPage (now p) (timers p) (xhr p) (reload_requested p) (rows p)
    (checkboxes p) (selectAll_checked p) (selectAll_indeterminate p) v
    (bulkActionsPanel p) (statusUpdateModal p) (selectedShipments p)
    (alerts p) (toasts p) (modals p) (detail p) (locations p) (triggered p)
    (console p) (audio p) (sounds p).
Definition set_bulkActionsPanel (v : bool) (p : page) : page :=
  mkPage (now p) (timers p) (xhr p) (reload_requested p) (rows p)
    (checkboxes p) (selectAll_checked p) (selectAll_indeterminate p)
    (selectedCount p) v (statusUpdateModal p) (selectedShipments p)
    (alerts p) (toasts p) (modals p) (detail p) (locations p) (triggered p)
    (console p) (audio p) (sounds p).
Definition set_statusUpdateModal (v : bool) (p : page) : page :=
  mkPage (now p) (timers p) (xhr p) (reload_requested p) (rows p)
    (checkboxes p) (selectAll_checked p) (selectAll_indeterminate p)
    (selectedCount p) (bulkActionsPanel p) v (selectedShipments p)
    (alerts p) (toasts p) (modals p) (detail p) (locations p) (triggered p)
    (console p) (audio p) (sounds p).
Definition set_selectedShipments (v : gset string) (p : page) : page :=
  mkPage (now p) (timers p) (xhr p) (reload_requested p) (rows p)
    (checkboxes p) (selectAll_checked p) (selectAll_indeterminate p)
    (selectedCount p) (bulkActionsPanel p) (statusUpdateModal p) v
    (alerts p) (toasts p) (modals p) (detail p) (locations p) (triggered p)
    (console p) (audio p) (sounds p).
Definition set_alerts (v : list alert) (p : page) : page :=
  mkPage (now p) (timers p) (xhr p) (reload_requested p) (rows p)
    (checkboxes p) (selectAll_checked p) (selectAll_indeterminate p)
    (selectedCount p) (bulkActionsPanel p) (statusUpdateModal p)
    (selectedShipments p) v (toasts p) (modals p) (detail p) (locations p)
    (triggered p) (console p) (audio p) (sounds p).
Definition set_toasts (v : list toast) (p : page) : page :=
  mkPage (now p) (timers p) (xhr p) (reload_requested p) (rows p)
    (checkboxes p) (selectAll_checked p) (selectAll_indeterminate p)
    (selectedCount p) (bulkActionsPanel p) (statusUpdateModal p)
    (selectedShipments p) (alerts p) v (modals p) (detail p) (locations p)
    (triggered p) (console p) (audio p) (sounds p).
Definition set_modals (v : list modal) (p : page) : page :=
  mkPage (now p) (timers p) (xhr p) (reload_requested p) (rows p)
    (checkboxes p) (selectAll_checked p) (selectAll_indeterminate p)
    (selectedCount p) (bulkActionsPanel p) (statusUpdateModal p)
    (selectedShipments p) (alerts p) (toasts p) v (detail p) (locations p)
    (triggered p) (console p) (audio p) (sounds p).
Definition set_detail (v : detail_view) (p : page) : page :=
  mkPage (now p) (timers p) (xhr p) (reload_requested p) (rows p)
    (checkboxes p) (selectAll_checked p) (selectAll_indeterminate p)
    (selectedCount p) (bulkActionsPanel p) (statusUpdateModal p)
    (selectedShipments p) (alerts p) (toasts p) (modals p) v (locations p)
    (triggered p) (console p) (audio p) (sounds p).
Definition set_locations (v : list location_display) (p : page) : page :=
  mkPage (now p) (timers p) (xhr p) (reload_requested p) (rows p)
    (checkboxes p) (selectAll_checked p) (selectAll_indeterminate p)
    (selectedCount p) (bulkActionsPanel p) (statusUpdateModal p)
    (selectedShipments p) (alerts p) (toasts p) (modals p) (detail p) v
    (triggered p) (console p) (audio p) (sounds p).
Definition set_triggered (v : list (string * option payload)) (p : page)
    : page :=
  mkPage (now p) (timers p) (xhr p) (reload_requested p) (rows p)
    (checkboxes p) (selectAll_checked p) (selectAll_indeterminate p)
    (selectedCount p) (bulkActionsPanel p) (statusUpdateModal p)
    (selectedShipments p) (alerts p) (toasts p) (modals p) (detail p)
    (locations p) v (console p) (audio p) (sounds p).
Definition set_console (v : list string) (p : page) : page :=
  mkPage (now p) (timers p) (xhr p) (reload_requested p) (rows p)
    (checkboxes p) (selectAll_checked p) (selectAll_indeterminate p)
    (selectedCount p) (bulkActionsPanel p) (statusUpdateModal p)
    (selectedShipments p) (alerts p) (toasts p) (modals p) (detail p)
    (locations p) (triggered p) v (audio p) (sounds p).
Definition set_audio (v : audio_env) (p : page) : page :=
  mkPage (now p) (timers p) (xhr p) (reload_requested p) (rows p)
    (checkboxes p) (selectAll_checked p) (selectAll_indeterminate p)
    (selectedCount p) (bulkActionsPanel p) (statusUpdateModal p)
    (selectedShipments p) (alerts p) (toasts p) (modals p) (detail p)
    (locations p) (triggered p) (console p) v (sounds p).
Definition set_sounds (v : nat) (p : page) : page :=
  mkPage (now p) (timers p) (xhr p) (reload_requested p) (rows p)
    (checkboxes p) (selectAll_checked p) (selectAll_indeterminate p)
    (selectedCount p) (bulkActionsPanel p) (statusUpdateModal p)
    (selectedShipments p) (alerts p) (toasts p) (modals p) (detail p)
    (locations p) (triggered p) (console p) (audio p) v.

(** *** Selecting and updating rows *)

(** The positions of the rows that
    [$(`.shipment-row[data-shipment-id="${id}"]`)] selects. *)
Fixpoint matching_from (k : nat) (id : string) (rs : list row) : list nat :=
  match rs with
  | [] => []
  | r :: rs' =>
      if bool_decide (row_id r = id) then k :: matching_from (S k) id rs'
      else matching_from (S k) id rs'
  end.

Definition matching (id : string) (rs : list row) : list nat :=
  matching_from 0 id rs.

(** Apply [f] to the rows at [targets], leave the others. *)
Definition update_rows (targets : list nat) (f : row -> row)
    (rs : list row) : list row :=
  imap (fun i r => if bool_decide (i ∈ targets) then f r else r) rs.

Definition set_badge_class (cl : list string) (r : row) : row :=
  mkRow (row_id r) (row_class r) cl (badge_text r).

Definition set_badge_text (t : string) (r : row) : row :=
  mkRow (row_id r) (row_class r) (badge_class r) t.

Definition set_row_class (cl : list string) (r : row) : row :=
  mkRow (row_id r) cl (badge_class r) (badge_text r).

(** *** The event loop: timers *)

(** A new timer goes behind every timer that is due no later. *)
Fixpoint insert_timer (t : nat * callback) (ts : list (nat * callback))
    : list (nat * callback) :=
  match ts with
  | [] => [t]
  | u :: ts' =>
      if (fst u <=? fst t)%nat then u :: insert_timer t ts'
      else t :: u :: ts'
  end.

Definition setTimeout (cb : callback) (delay : nat) (p : page) : page :=
  set_timers (insert_timer ((now p + delay)%nat, cb) (timers p)) p.

(** Running a timer's closure. Bootstrap's [alert('close')] takes the
    element out of the document (its fade-out of a fraction of a second
    is not modelled); on an empty selection it does nothing. *)
Definition fire (cb : callback) (p : page) : page :=
  match cb with
  | CloseLastAlert => set_alerts (removelast (alerts p)) p
  | RemoveRowClass targets name =>
      set_rows
        (update_rows targets
           (fun r => set_row_class (JQuery.removeClass name (row_class r)) r)
           (rows p))
        p
  end.

(** Let time pass until [t]: the timers due by then run in order of due
    time, each at its own due time. *)
Fixpoint run_timers (fuel : nat) (t : nat) (p : page) : page :=
  match fuel with
  | O => p
  | S fuel' =>
      match timers p with
      | [] => set_now (Nat.max (now p) t) p
      | (due, cb) :: rest =>
          if (due <=? t)%nat then
            run_timers fuel' t
              (fire cb (set_timers rest (set_now (Nat.max (now p) due) p)))
          else set_now (Nat.max (now p) t) p
      end
  end.

Definition advance_to (t : nat) (p : page) : page :=
  run_timers (S (length (timers p))) t p.

(** [$(document).trigger(name, [data])]. *)
Definition trigger (name : string) (data : option payload) (p : page)
    : page :=
  set_triggered (triggered p ++ [(name, data)]) p.

(** [console.log] and [console.error]. *)
Definition console_log (line : string) (p : page) : page :=
  set_console (console p ++ [line]) p.

(** A freshly loaded document, before any script has run: the rows and
    check boxes as the server rendered them, nothing pending. *)
Definition document (rs : list row) (cbs : list checkbox) : page :=
  mkPage 0 [] [] false rs cbs false false 0 false false ∅ [] [] []
    (mkDetail false None "" "") [] [] [] AudioPlays 0.

End Dom.

(** ** shipments.js: class [TFSTShipments] *)

Module Shipments.
Import Dom.

(** [constructor()]: a new, empty selection. ([init] only registers the
    handlers below.) *)
Definition constructor (doc : page) : page :=
  set_selectedShipments ∅ doc.

(** [showNotification(message, type = 'info')]. *)
Definition showNotification (message : string) (type : string) (p : page)
    : page :=
  let alertClass :=
    if bool_decide (type = "error") then "alert-danger"
    else "alert-" +:+ type in
  let p1 := set_alerts (alerts p ++ [mkAlert alertClass None message]) p in
  setTimeout CloseLastAlert 5000 p1.

(** [refreshData()]: [location.reload()]. *)
Definition refreshData (p : page) : page :=
  set_reload_requested true p.

(** What the browser does with a requested reload once the running
    handler has returned: the page is replaced by a freshly loaded
    document, on which [$(document).ready] constructs a new
    [TFSTShipments]. *)
Definition reload (fresh : page) (p : page) : page :=
  if reload_requested p then constructor fresh else p.

(** [updateBulkActions()]. *)
Definition updateBulkActions (p : page) : page :=
  let count := size (selectedShipments p) in
  set_bulkActionsPanel (0 <? count)%nat (set_selectedCount count p).

(** [handleSelectAll(e)], [checked] being [e.target.checked]. *)
Definition handleSelectAll (checked : bool) (p : page) : page :=
  let p1 :=
    set_checkboxes
      (map (fun c => mkCheckbox (cb_value c) checked) (checkboxes p)) p in
  let p2 :=
    if checked then
      set_selectedShipments
        (fold_left (fun acc c => acc ∪ {[cb_value c]}) (checkboxes p1)
           (selectedShipments p1))
        p1
    else set_selectedShipments ∅ p1 in
  updateBulkActions p2.

(** The number of [.shipment-checkbox:checked] elements. *)
Definition checkedBoxes (p : page) : nat :=
  length (filter (fun c => cb_checked c = true) (checkboxes p)).

Definition totalCheckboxes (p : page) : nat :=
  length (checkboxes p).

(** [handleShipmentSelect(e)], [target] being [e.target]. *)
Definition handleShipmentSelect (target : checkbox) (p : page) : page :=
  let shipmentId := cb_value target in
  let checked := cb_checked target in
  let p1 :=
    if checked then
      set_selectedShipments (selectedShipments p ∪ {[shipmentId]}) p
    else set_selectedShipments (selectedShipments p ∖ {[shipmentId]}) p in
  let total := totalCheckboxes p1 in
  let checkedNow := checkedBoxes p1 in
  let p2 := set_selectAll_checked (total =? checkedNow)%nat p1 in
  let p3 :=
    set_selectAll_indeterminate
      ((0 <? checkedNow)%nat && (checkedNow <? total)%nat) p2 in
  updateBulkActions p3.

(** The operator clicks the check box of the [i]-th rendered row: the
    browser flips the box, then the [change] handler runs on it. *)
Definition toggle_row (i : nat) (p : page) : page :=
  match checkboxes p !! i with
  | Some c =>
      let c' := mkCheckbox (cb_value c) (negb (cb_checked c)) in
      handleShipmentSelect c' (set_checkboxes (<[i := c']> (checkboxes p)) p)
  | None => p
  end.

(** [updateShipmentStatus(shipmentId, data)]: the POST is sent; its
    callbacks run when the answer arrives. *)
Definition updateShipmentStatus (shipmentId : string) (data : update_data)
    (p : page) : page :=
  set_xhr (xhr p ++ [mkRequest shipmentId data]) p.

(** The JSON body of an answer: [{success, error?}]. *)
Record response := mkResponse {
  success : bool;
  error : option string
}.

(** How a request ends: an answer of the server ([success:] callback), or
    an HTTP level failure ([error:] callback) with [xhr.responseJSON]. *)
Inductive outcome :=
  | Answered (r : response)
  | Failed (responseJSON : option response).

(** The [success:] callback. *)
Definition on_success (r : response) (p : page) : page :=
  if success r then
    refreshData
      (set_statusUpdateModal false
         (showNotification "Status updated successfully" "success" p))
  else
    showNotification
      ("Failed to update status: " +:+ Js.interp (error r)) "error" p.

(** The [error:] callback. *)
Definition on_error (responseJSON : option response) (p : page) : page :=
  let response_error :=
    match responseJSON with
    | Some r => error r
    | None => None
    end in
  showNotification
    ("Update failed: " +:+ Js.or_else response_error "Server error")
    "error" p.

(** The [i]-th pending request ends. *)
Definition resolve (i : nat) (o : outcome) (p : page) : page :=
  match xhr p !! i with
  | Some _ =>
      let p1 := set_xhr (delete i (xhr p)) p in
      match o with
      | Answered r => on_success r p1
      | Failed j => on_error j p1
      end
  | None => p
  end.


(** The class string of a status badge. *)
Definition badge_classes (status : string) : string :=
  "badge status-badge status-"
  +:+ Js.replace_space (Js.toLowerCase status).

(** [handleRealtimeUpdate(data)]. *)
Definition handleRealtimeUpdate (data : option payload) (p : page)
    : page * Js.completion :=
  match data with
  | None => (p, Js.Threw "TypeError: data is undefined")
  | Some d =>
      let row := matching (shipment_id d) (rows p) in
      let notify q :=
        showNotification
          (shipment_id d +:+ " updated: " +:+ Js.interp (current_status d))
          "info" q in
      match row with
      | [] => (notify p, Js.Returned)
      | _ :: _ =>
          (* statusBadge.removeClass() *)
          let p1 :=
            set_rows (update_rows row (set_badge_class []) (rows p)) p in
          match current_status d with
          | None =>
              (p1, Js.Threw "TypeError: data.current_status is undefined")
          | Some st =>
              let paint r :=
                set_row_class (JQuery.addClass "table-warning" (row_class r))
                  (set_badge_text st
                     (set_badge_class
                        (JQuery.addClass (badge_classes st) (badge_class r))
                        r)) in
              let p2 := set_rows (update_rows row paint (rows p1)) p1 in
              let p3 :=
                setTimeout (RemoveRowClass row "table-warning") 3000 p2 in
              (notify p3, Js.Returned)
          end
      end
  end.

(** The listeners [connectWebSocket] registers on this script's socket.
    [updateMapMarker] is not a method of the class, so the
    [location_update] listener raises a [TypeError]. An event without a
    listener is dropped by the socket. *)
Definition listener (name : string) (data : option payload) (p : page)
    : page * Js.completion :=
  if bool_decide (name = "shipment_update") then handleRealtimeUpdate data p
  else if bool_decide (name = "location_update") then
    (p, Js.Threw "TypeError: this.updateMapMarker is not a function")
  else (p, Js.Returned).

(** One inbound event: its listener runs as one task of the event loop;
    an exception that leaves the listener ends that task and nothing
    else. *)
Definition receive (m : string * option payload) (p : page) : page :=
  fst (listener (fst m) (snd m) p).

Definition receive_all (ms : list (string * option payload)) (p : page)
    : page :=
  fold_left (fun q m => receive m q) ms p.

End Shipments.

(** ** websocket.js: class [TFSTWebSocket] *)

Module WebSocket.
Import Dom.

(** *** The client object and its outbound side *)

(** The fields of the object, the [#connectionStatus] indicator it
    maintains ([None]: no such element) and what it has emitted on its
    socket (event name and shipment id, if any). *)
Record client := mkClient {
  has_socket : bool;
  reconnectAttempts : nat;
  maxReconnectAttempts : nat;
  reconnectDelay : nat;
  connected : bool;
  connectionStatus : option string;
  emitted : list (string * option string);
  log : list string
}.

(** [constructor()] and [init()]; [io_defined] is [typeof io !==
    'undefined'], [indicator] the indicator of the loaded page. *)
Definition constructor (io_defined : bool) (indicator : option string)
    : client :=
  mkClient io_defined 0 5 1000 false indicator [] [].

Definition set_connected (b : bool) (c : client) : client :=
  mkClient (has_socket c) (reconnectAttempts c) (maxReconnectAttempts c)
    (reconnectDelay c) b (connectionStatus c) (emitted c) (log c).

Definition set_reconnectAttempts (n : nat) (c : client) : client :=
  mkClient (has_socket c) n (maxReconnectAttempts c) (reconnectDelay c)
    (connected c) (connectionStatus c) (emitted c) (log c).

Definition set_connectionStatus (s : option string) (c : client) : client :=
  mkClient (has_socket c) (reconnectAttempts c) (maxReconnectAttempts c)
    (reconnectDelay c) (connected c) s (emitted c) (log c).

Definition write_log (line : string) (c : client) : client :=
  mkClient (has_socket c) (reconnectAttempts c) (maxReconnectAttempts c)
    (reconnectDelay c) (connected c) (connectionStatus c) (emitted c)
    (log c ++ [line]).

(** [this.socket.emit(name, {shipment_id: id})]. *)
Definition emit (name : string) (id : option string) (c : client) : client :=
  mkClient (has_socket c) (reconnectAttempts c) (maxReconnectAttempts c)
    (reconnectDelay c) (connected c) (connectionStatus c)
    (emitted c ++ [(name, id)]) (log c).

(** [updateConnectionStatus(status)]. *)
Definition updateConnectionStatus (status : string) (c : client) : client :=
  match connectionStatus c with
  | None => c
  | Some _ =>
      if bool_decide (status = "connected") then
        set_connectionStatus (Some "Connected") c
      else if bool_decide (status = "disconnected") then
        set_connectionStatus (Some "Disconnected") c
      else if bool_decide (status = "error") then
        set_connectionStatus (Some "Connection Error") c
      else c
  end.

(** The connection events of the socket, as [connect()] handles them. *)
Inductive socket_event :=
  | Connect
  | Disconnect
  | ConnectError
  | Reconnect
  | ReconnectError.

Definition on_socket (e : socket_event) (c : client) : client :=
  match e with
  | Connect =>
      updateConnectionStatus "connected"
        (set_reconnectAttempts 0
           (set_connected true (write_log "WebSocket connected" c)))
  | Disconnect =>
      updateConnectionStatus "disconnected"
        (set_connected false (write_log "WebSocket disconnected" c))
  | ConnectError =>
      updateConnectionStatus "error"
        (write_log "WebSocket connection error:" c)
  | Reconnect =>
      updateConnectionStatus "connected"
        (write_log "WebSocket reconnected after" c)
  | ReconnectError => write_log "WebSocket reconnection failed:" c
  end.

Definition subscribeToShipment (shipmentId : string) (c : client) : client :=
  if connected c then emit "subscribe_shipment" (Some shipmentId) c else c.

Definition unsubscribeFromShipment (shipmentId : string) (c : client)
    : client :=
  if connected c then emit "unsubscribe_shipment" (Some shipmentId) c else c.

Definition requestShipmentStatus (shipmentId : string) (c : client)
    : client :=
  if connected c then emit "request_shipment_status" (Some shipmentId) c
  else c.

Definition ping (c : client) : client :=
  if connected c then emit "ping" None c else c.

(** The closure of [setInterval(..., 30000)], on [window.TFST_WebSocket]. *)
Definition keepalive_interval : nat := 30 * 1000.

Definition keepalive_tick (w : option client) : option client :=
  match w with
  | Some c => Some (ping c)
  | None => None
  end.

(** What can happen to the client, one at a time. *)
Inductive action :=
  | Socket (e : socket_event)
  | Subscribe (shipmentId : string)
  | Unsubscribe (shipmentId : string)
  | RequestStatus (shipmentId : string)
  | Ping
  | Tick.

Definition step (a : action) (c : client) : client :=
  match a with
  | Socket e => on_socket e c
  | Subscribe id => subscribeToShipment id c
  | Unsubscribe id => unsubscribeFromShipment id c
  | RequestStatus id => requestShipmentStatus id c
  | Ping => ping c
  | Tick =>
      match keepalive_tick (Some c) with
      | Some c' => c'
      | None => c
      end
  end.

Definition run (acts : list action) (c : client) : client :=
  fold_left (fun c a => step a c) acts c.

(** The actions the page takes itself, as opposed to connection events. *)
Definition outbound (a : action) : bool :=
  match a with
  | Socket _ => false
  | _ => true
  end.

(** *** The inbound side: handlers on the page *)

(** [showNotification(message, type = 'info')]: a toast is appended and
    shown. The script sets no timer for it. *)
Definition showNotification (message : string) (type : string) (p : page)
    : page :=
  set_toasts (toasts p ++ [mkToast ("bg-" +:+ type) message true]) p.

Definition badge_classes (status : string) : string :=
  "badge status-badge status-"
  +:+ Js.replace_space (Js.toLowerCase status).

(** The body of [.each(function() {...})] in [updateShipmentDisplay], over
    the selected rows in document order. *)
Fixpoint each_row (targets : list nat) (d : payload) (p : page)
    : page * Js.completion :=
  match targets with
  | [] => (p, Js.Returned)
  | i :: rest =>
      (* statusBadge.removeClass() *)
      let p1 := set_rows (update_rows [i] (set_badge_class []) (rows p)) p in
      match current_status d with
      | None => (p1, Js.Threw "TypeError: data.current_status is undefined")
      | Some st =>
          let paint r :=
            set_row_class (JQuery.addClass "table-info" (row_class r))
              (set_badge_text st
                 (set_badge_class
                    (JQuery.addClass (badge_classes st) (badge_class r)) r)) in
          let p2 := set_rows (update_rows [i] paint (rows p1)) p1 in
          each_row rest d (setTimeout (RemoveRowClass [i] "table-info") 2000 p2)
      end
  end.

(** [updateShipmentDisplay(data)]. [.text(undefined)] reads and does not
    write. *)
Definition updateShipmentDisplay (data : option payload) (p : page)
    : page * Js.completion :=
  match data with
  | None => (p, Js.Threw "TypeError: data is undefined")
  | Some d =>
      match each_row (matching (shipment_id d) (rows p)) d p with
      | (p1, Js.Threw e) => (p1, Js.Threw e)
      | (p1, Js.Returned) =>
          let v := detail p1 in
          if detail_visible v
             && bool_decide (detail_shipment v = Some (shipment_id d))
          then
            let status' :=
              match current_status d with
              | Some st => st
              | None => currentStatus v
              end in
            (set_detail
               (mkDetail (detail_visible v) (detail_shipment v) status'
                  "Just now") p1,
             Js.Returned)
          else (p1, Js.Returned)
      end
  end.

(** [handleShipmentUpdate(data)]. *)
Definition handleShipmentUpdate (data : option payload) (p : page)
    : page * Js.completion :=
  let p1 := trigger "shipment:update" data p in
  match updateShipmentDisplay data p1 with
  | (p2, Js.Threw e) => (p2, Js.Threw e)
  | (p2, Js.Returned) =>
      match data with
      | None => (p2, Js.Threw "TypeError: data is undefined")
      | Some d =>
          (showNotification
             ("Shipment " +:+ shipment_id d +:+ " updated: "
              +:+ Js.interp (current_status d)) "info" p2,
           Js.Returned)
      end
  end.

(** The body of [.each] in [updateLocationDisplay], over the positions of
    the selected location displays. *)
Fixpoint each_location (targets : list nat) (d : payload) (p : page)
    : page * Js.completion :=
  match targets with
  | [] => (p, Js.Returned)
  | i :: rest =>
      match location d with
      | None => (p, Js.Threw "TypeError: data.location is undefined")
      | Some g =>
          let html := lat_fixed4 g +:+ ", " +:+ lng_fixed4 g in
          each_location rest d
            (set_locations
               (imap (fun k l =>
                        if bool_decide (k = i)
                        then mkLocationDisplay (loc_id l) html else l)
                  (locations p)) p)
      end
  end.

Fixpoint matching_locations (k : nat) (id : string)
    (ls : list location_display) : list nat :=
  match ls with
  | [] => []
  | l :: ls' =>
      if bool_decide (loc_id l = id) then k :: matching_locations (S k) id ls'
      else matching_locations (S k) id ls'
  end.

(** [updateLocationDisplay(data)]. *)
Definition updateLocationDisplay (data : option payload) (p : page)
    : page * Js.completion :=
  match data with
  | None => (p, Js.Threw "TypeError: data is undefined")
  | Some d =>
      each_location (matching_locations 0 (shipment_id d) (locations p)) d p
  end.

(** [handleLocationUpdate(data)]. *)
Definition handleLocationUpdate (data : option payload) (p : page)
    : page * Js.completion :=
  updateLocationDisplay data (trigger "location:update" data p).

(** [showEmergencyAlert(data)]: the modal is appended and shown. The
    script sets no timer for it. *)
Definition showEmergencyAlert (data : option payload) (p : page)
    : page * Js.completion :=
  match data with
  | None => (p, Js.Threw "TypeError: data is undefined")
  | Some d =>
      let m :=
        mkModal (shipment_id d) (Js.interp (alert_message d))
          (match location d with
           | Some g => Some (lat g, lng g)
           | None => None
           end) true in
      (set_modals (modals p ++ [m]) p, Js.Returned)
  end.

(** [playAlertSound()]: never raises. *)
Definition playAlertSound (p : page) : page :=
  match audio p with
  | AudioUnsupported => console_log "Audio not supported" p
  | AudioBlocked =>
      console_log "Audio play failed - user interaction required" p
  | AudioPlays => set_sounds (S (sounds p)) p
  end.

(** [handleEmergencyAlert(data)]. *)
Definition handleEmergencyAlert (data : option payload) (p : page)
    : page * Js.completion :=
  match showEmergencyAlert data p with
  | (p1, Js.Threw e) => (p1, Js.Threw e)
  | (p1, Js.Returned) =>
      (playAlertSound (trigger "emergency:alert" data p1), Js.Returned)
  end.

(** The operator dismisses the [i]-th emergency modal ([Acknowledge]):
    on [hidden.bs.modal] the script removes it. *)
Definition acknowledge (i : nat) (p : page) : page :=
  set_modals (delete i (modals p)) p.

(** [handleDriverStatusChange(data)]. *)
Definition handleDriverStatusChange (data : option payload) (p : page)
    : page * Js.completion :=
  (console_log "Driver status changed:" (trigger "driver:status" data p),
   Js.Returned).

(** [handleMobileUpdate(data)]. *)
Definition handleMobileUpdate (data : option payload) (p : page)
    : page * Js.completion :=
  let p1 := trigger "mobile:update" data p in
  match data with
  | None => (p1, Js.Threw "TypeError: data is undefined")
  | Some d =>
      (showNotification ("Mobile update: " +:+ shipment_id d) "info" p1,
       Js.Returned)
  end.

(** The listeners [setupEventListeners] registers. An event without a
    listener is dropped by the socket. *)
Definition listener (name : string) (data : option payload) (p : page)
    : page * Js.completion :=
  if bool_decide (name = "shipment_update") then handleShipmentUpdate data p
  else if bool_decide (name = "location_update") then
    handleLocationUpdate data p
  else if bool_decide (name = "emergency_alert") then
    handleEmergencyAlert data p
  else if bool_decide (name = "driver_status_change") then
    handleDriverStatusChange data p
  else if bool_decide (name = "mobile_update") then handleMobileUpdate data p
  else (p, Js.Returned).

(** One inbound event: its listener runs as one task of the event loop;
    an exception that leaves the listener ends that task and nothing
    else. *)
Definition receive (m : string * option payload) (p : page) : page :=
  fst (listener (fst m) (snd m) p).

Definition receive_all (ms : list (string * option payload)) (p : page)
    : page :=
  fold_left (fun q m => receive m q) ms p.

End WebSocket.

(** ** dashboard.js: class [TFSTDashboard] *)

Module Dashboard.
Import Dom.

(** [showNotification(message, type = 'info')]. *)
Definition showNotification (message : string) (type : string) (p : page)
    : page :=
  let alertClass :=
    if bool_decide (type = "error") then "alert-danger"
    else "alert-" +:+ type in
  let icon := Some "fas fa-info-circle me-2" in
  let p1 := set_alerts (alerts p ++ [mkAlert alertClass icon message]) p in
  setTimeout CloseLastAlert 5000 p1.

End Dashboard.

(** ** The net effect of a status event on one selected row

    These functions are not part of the scripts; the lemmas below state
    what the handlers do to a row in terms of them. *)

Module Effect.
Import Dom.

(** A row whose badge lost its classes. *)
Definition cleared (r : row) : row := set_badge_class [] r.

(** A selected row after shipments.js has handled a status [st]. *)
Definition warned (st : string) (r : row) : row :=
  mkRow (row_id r)
    (JQuery.addClass "table-warning" (row_class r))
    (JQuery.addClass (Shipments.badge_classes st) [])
    st.

(** A selected row after websocket.js has handled a status [st]. *)
Definition informed (st : string) (r : row) : row :=
  mkRow (row_id r)
    (JQuery.addClass "table-info" (row_class r))
    (JQuery.addClass (WebSocket.badge_classes st) [])
    st.

(** The net effect of shipments.js on a selected row: painted with the
    status, or, when the event carries none, left with a cleared badge. *)
Definition shipments_effect (d : payload) : row -> row :=
  match current_status d with
  | Some st => warned st
  | None => cleared
  end.

(** The net effect of websocket.js on the rows selected by the event: all
    are painted, or, when the event carries no status, the first one is
    left with a cleared badge. *)
Definition websocket_rows (d : payload) (rs : list row) : list row :=
  match current_status d with
  | Some st => update_rows (matching (shipment_id d) rs) (informed st) rs
  | None => update_rows (take 1 (matching (shipment_id d) rs)) cleared rs
  end.

(** Does [updateShipmentDisplay] raise on this event? It does when a row
    is selected and the event carries no status. *)
Definition display_throws (d : payload) (rs : list row) : bool :=
  match current_status d, matching (shipment_id d) rs with
  | None, _ :: _ => true
  | _, _ => false
  end.

(** The net effect of websocket.js on the detail view. *)
Definition detail_effect (d : payload) (v : detail_view) : detail_view :=
  if detail_visible v && bool_decide (detail_shipment v = Some (shipment_id d))
  then
    mkDetail (detail_visible v) (detail_shipment v)
      (match current_status d with
       | Some st => st
       | None => currentStatus v
       end)
      "Just now"
  else v.

(** The ids of the rendered check boxes. *)
Definition rendered_ids (p : page) : gset string :=
  list_to_set (map cb_value (checkboxes p)).



End Effect.

(** ** The pages and events of the scenarios *)

Module Scenario.
Import Dom.

Definition shp1001_page : page :=
  document
    [mkRow "SHP-1001" ["shipment-row"]
       ["badge"; "status-badge"; "status-pending"] "Pending";
     mkRow "SHP-1002" ["shipment-row"]
       ["badge"; "status-badge"; "status-delivered"] "Delivered"]
    [mkCheckbox "SHP-1001" false; mkCheckbox "SHP-1002" false].

Definition shp1001_in_transit : payload :=
  mkPayload "SHP-1001" (Some "In Transit") None None.


(** The body of a local status update. *)
Definition delivered : update_data := mkUpdateData "Delivered" "".

Definition plain_row (id : string) : row :=
  mkRow id ["shipment-row"] ["badge"; "status-badge"; "status-pending"]
    "Pending".

(** A page that renders the rows A, B, C, and the same page after the
    operator has ticked all three. *)
Definition abc_page : page :=
  document [plain_row "A"; plain_row "B"; plain_row "C"]
    [mkCheckbox "A" false; mkCheckbox "B" false; mkCheckbox "C" false].

Definition abc_selected : page :=
  Shipments.toggle_row 2
    (Shipments.toggle_row 1 (Shipments.toggle_row 0 abc_page)).

(** What the server renders next: the rows B, C, D. *)
Definition bcd_page : page :=
  document [plain_row "B"; plain_row "C"; plain_row "D"]
    [mkCheckbox "B" false; mkCheckbox "C" false; mkCheckbox "D" false].

(** Notification A at time 0, notification B at time 1000. *)
Definition two_notices : page :=
  Shipments.showNotification "B" "info"
    (advance_to 1000
       (Shipments.showNotification "A" "info" (document [] []))).

Definition two_dashboard_notices : page :=
  Dashboard.showNotification "B" "info"
    (advance_to 1000
       (Dashboard.showNotification "A" "info" (document [] []))).


End Scenario.

(** ** shipments.js: [debounce(func, wait)]

    The closure returned by [debounce] owns the variable [timeout]; the
    timers it sets are kept with their handles, so that [clearTimeout]
    can take one back. [A] is the type of the argument list. *)

Module Debounce.
Section Debounced.
Context {A : Type}.
Variable wait : nat.

Record state := mkState {
  clock : nat;
  next_handle : nat;
  pending : list (nat * nat * A);      (* handle, due time, arguments *)
  timeout : option nat;                (* [let timeout;] *)
  invoked : list (nat * A)             (* the calls of [func], with time *)
}.

(** The closure just created: [timeout] is undefined. *)
Definition fresh (t0 : nat) : state := mkState t0 0 [] None [].

(** [clearTimeout(h)]: an undefined or stale handle clears nothing. *)
Definition clearTimeout (h : option nat) (st : state) : state :=
  match h with
  | None => st
  | Some k =>
      mkState (clock st) (next_handle st)
        (filter (fun e => fst (fst e) <> k) (pending st))
        (timeout st) (invoked st)
  end.



(** [later()], for the call with [args]. *)
Definition later (args : A) (st : state) : state :=
  let st1 := clearTimeout (timeout st) st in
  mkState (clock st1) (next_handle st1) (pending st1) (timeout st1)
    (invoked st1 ++ [(clock st1, args)]).

(** Let time pass until [t]. *)
Fixpoint run_pending (fuel : nat) (t : nat) (st : state) : state :=
  match fuel with
  | O => st
  | S fuel' =>
      match pending st with
      | [] =>
          mkState (Nat.max (clock st) t) (next_handle st) [] (timeout st)
            (invoked st)
      | (h, due, args) :: rest =>
          if (due <=? t)%nat then
            run_pending fuel' t
              (later args
                 (mkState (Nat.max (clock st) due) (next_handle st) rest
                    (timeout st) (invoked st)))
          else
            mkState (Nat.max (clock st) t) (next_handle st) (pending st)
              (timeout st) (invoked st)
      end
  end.

Definition advance_to (t : nat) (st : state) : state :=
  run_pending (S (length (pending st))) t st.



End Debounced.

Arguments state : clear implicits.
Arguments fresh {A} t0.

End Debounce.

(** ** dashboard.js: class [TFSTDashboard], on the dashboard page

    The dashboard page has its own document: KPI elements with a text,
    the parent element of each of them, the trend indicators below each
    parent, two charts, the loading overlays and the alerts. KPI text
    elements are leaves, and the parents of different KPI elements are
    not nested in each other. A number of a JSON answer is kept as what
    the script can observe of it: its truthiness, its sign and its
    printed forms. *)

Module DashboardPage.

(** A number as the script sees it. *)
Inductive sign := Positive | Negative | Neither.

Record number := mkNumber {
  falsy : bool;           (* 0 and NaN *)
  sign_of : sign;         (* [> 0], [< 0], or neither *)
  printed : string;       (* as [.text(n)] and [n + '%'] print it *)
  printed_abs : string    (* as [Math.abs(n)] is printed *)
}.

(** [kpis]: the payload of a KPI answer and of a [kpi_update] event. An
    absent property is [None]; an object keeps its keys in order. *)
Record kpis := mkKpis {
  total_shipments : option number;
  in_transit : option number;
  delivered_today : option number;
  on_time_percentage : option number;
  trends : option (list (string * number));
  status_breakdown : option (list (string * number));
  performance_trend : option (list string * list number)
}.

(** A [<small class="trend-indicator ...">]. *)
Record indicator := mkIndicator {
  ind_color : string;
  ind_icon : string;
  ind_text : string
}.

(** A Chart.js chart: its labels, its data and the number of redraws. *)
Record chart := mkChart {
  chart_labels : list string;
  chart_data : list number;
  chart_updates : nat
}.

(** The closures handed to [setTimeout]. *)
Inductive task :=
  | CloseLastAlert          (* () => $('.alert').last().alert('close') *)
  | RemoveLoadingOverlays   (* () => $('.loading-overlay').remove() *)
  | RefreshKPIs.            (* () => this.refreshKPIs() *)

(** The two URLs the script fetches. *)
Inductive endpoint :=
  | KpisApi          (* /dashboard/api/kpis *)
  | ShipmentsApi.    (* /api/v1/shipments?limit=10 *)

Record page := mkPage {
  clock : nat;
  tasks : list (nat * task);
  gets : list endpoint;
  notices : list Dom.alert;
  overlays : nat;
  texts : gmap string string;
  parents : gmap string nat;
  indicators : gmap nat (list indicator);
  status_chart : option chart;
  performance_chart : option chart;
  journal : list string;
  href : option string
}.

(** Field updates. *)
Definition set_clock (v : nat) (p : page) : page :=
  mkPage v (tasks p) (gets p) (notices p) (overlays p) (texts p) (parents p)
    (indicators p) (status_chart p) (performance_chart p) (journal p)
    (href p).
Definition set_tasks (v : list (nat * task)) (p : page) : page :=
  mkPage (clock p) v (gets p) (notices p) (overlays p) (texts p) (parents p)
    (indicators p) (status_chart p) (performance_chart p) (journal p)
    (href p).
Definition set_gets (v : list endpoint) (p : page) : page :=
  mkPage (clock p) (tasks p) v (notices p) (overlays p) (texts p)
    (parents p) (indicators p) (status_chart p) (performance_chart p)
    (journal p) (href p).
Definition set_notices (v : list Dom.alert) (p : page) : page :=
  mkPage (clock p) (tasks p) (gets p) v (overlays p) (texts p) (parents p)
    (indicators p) (status_chart p) (performance_chart p) (journal p)
    (href p).
Definition set_overlays (v : nat) (p : page) : page :=
  mkPage (clock p) (tasks p) (gets p) (notices p) v (texts p) (parents p)
    (indicators p) (status_chart p) (performance_chart p) (journal p)
    (href p).
Definition set_texts (v : gmap string string) (p : page) : page :=
  mkPage (clock p) (tasks p) (gets p) (notices p) (overlays p) v (parents p)
    (indicators p) (status_chart p) (performance_chart p) (journal p)
    (href p).
Definition set_indicators (v : gmap nat (list indicator)) (p : page) : page :=
  mkPage (clock p) (tasks p) (gets p) (notices p) (overlays p) (texts p)
    (parents p) v (status_chart p) (performance_chart p) (journal p)
    (href p).
Definition set_status_chart (v : option chart) (p : page) : page :=
  mkPage (clock p) (tasks p) (gets p) (notices p) (overlays p) (texts p)
    (parents p) (indicators p) v (performance_chart p) (journal p) (href p).
Definition set_performance_chart (v : option chart) (p : page) : page :=
  mkPage (clock p) (tasks p) (gets p) (notices p) (overlays p) (texts p)
    (parents p) (indicators p) (status_chart p) v (journal p) (href p).
Definition set_journal (v : list string) (p : page) : page :=
  mkPage (clock p) (tasks p) (gets p) (notices p) (overlays p) (texts p)
    (parents p) (indicators p) (status_chart p) (performance_chart p) v
    (href p).
Definition set_href (v : option string) (p : page) : page :=
  mkPage (clock p) (tasks p) (gets p) (notices p) (overlays p) (texts p)
    (parents p) (indicators p) (status_chart p) (performance_chart p)
    (journal p) v.

(** The page just loaded and constructed: [initStatusChart] and
    [initPerformanceChart] create a chart where the canvas exists. *)
Definition loaded (elements : gmap string string) (above : gmap string nat)
    (status_canvas performance_canvas : bool) : page :=
  mkPage 0 [] [] [] 0 elements above ∅
    (if status_canvas then Some (mkChart [] [] 0) else None)
    (if performance_canvas then Some (mkChart [] [] 0) else None)
    [] None.

(** *** The event loop *)

Fixpoint insert_task (t : nat * task) (ts : list (nat * task))
    : list (nat * task) :=
  match ts with
  | [] => [t]
  | u :: ts' =>
      if (fst u <=? fst t)%nat then u :: insert_task t ts'
      else t :: u :: ts'
  end.

Definition setTimeout (cb : task) (delay : nat) (p : page) : page :=
  set_tasks (insert_task ((clock p + delay)%nat, cb) (tasks p)) p.

(** [refreshKPIs()] and [refreshRecentShipments()]: the GET is sent; its
    callbacks run when the answer arrives. *)
Definition refreshKPIs (p : page) : page :=
  set_gets (gets p ++ [KpisApi]) p.

Definition refreshRecentShipments (p : page) : page :=
  set_gets (gets p ++ [ShipmentsApi]) p.

Definition fire (cb : task) (p : page) : page :=
  match cb with
  | CloseLastAlert => set_notices (removelast (notices p)) p
  | RemoveLoadingOverlays => set_overlays 0 p
  | RefreshKPIs => refreshKPIs p
  end.

Fixpoint run_tasks (fuel : nat) (t : nat) (p : page) : page :=
  match fuel with
  | O => p
  | S fuel' =>
      match tasks p with
      | [] => set_clock (Nat.max (clock p) t) p
      | (due, cb) :: rest =>
          if (due <=? t)%nat then
            run_tasks fuel' t
              (fire cb (set_tasks rest (set_clock (Nat.max (clock p) due) p)))
          else set_clock (Nat.max (clock p) t) p
      end
  end.

Definition advance_to (t : nat) (p : page) : page :=
  run_tasks (S (length (tasks p))) t p.

(** *** The methods *)

(** [showNotification(message, type = 'info')], as
    [Dashboard.showNotification], on the dashboard's own page. *)
Definition showNotification (message : string) (type : string) (p : page)
    : page :=
  let alertClass :=
    if bool_decide (type = "error") then "alert-danger"
    else "alert-" +:+ type in
  let icon := Some "fas fa-info-circle me-2" in
  let p1 :=
    set_notices (notices p ++ [Dom.mkAlert alertClass icon message]) p in
  setTimeout CloseLastAlert 5000 p1.

(** [showLoading()]. *)
Definition showLoading (p : page) : page :=
  setTimeout RemoveLoadingOverlays 3000 (set_overlays (S (overlays p)) p).

(** [refreshData()]. *)
Definition refreshData (p : page) : page :=
  refreshRecentShipments (refreshKPIs (showLoading p)).

(** [$('#id').text(v)]: nothing happens if there is no such element. *)
Definition set_text (id : string) (v : string) (p : page) : page :=
  match texts p !! id with
  | Some _ => set_texts (<[id := v]> (texts p)) p
  | None => p
  end.

(** [n || 0], printed. *)
Definition or_zero (n : option number) : string :=
  match n with
  | Some x => if falsy x then "0" else printed x
  | None => "0"
  end.

(** The indicator [addTrendIndicators] builds for a trend. *)
Definition indicator_of (trend : number) : indicator :=
  match sign_of trend with
  | Positive =>
      mkIndicator "text-success" "fas fa-arrow-up"
        (printed_abs trend +:+ "%")
  | Negative =>
      mkIndicator "text-danger" "fas fa-arrow-down"
        (printed_abs trend +:+ "%")
  | Neither =>
      mkIndicator "text-muted" "fas fa-minus" (printed_abs trend +:+ "%")
  end.

(** The body of [forEach] in [addTrendIndicators]: below the parent of
    the metric's element, the indicators are removed and the new one is
    appended. *)
Definition add_trend (p : page) (m : string * number) : page :=
  match parents p !! fst m with
  | Some above =>
      set_indicators (<[above := [indicator_of (snd m)]]> (indicators p)) p
  | None => p
  end.

(** [addTrendIndicators(kpis)]. *)
Definition addTrendIndicators (k : kpis) (p : page) : page :=
  fold_left add_trend (default [] (trends k)) p.

(** [updateKPICards(kpis)]; [kpis] undefined raises at once. *)
Definition updateKPICards (data : option kpis) (p : page)
    : page * Js.completion :=
  match data with
  | None => (p, Js.Threw "TypeError: kpis is undefined")
  | Some k =>
      let p1 := set_text "total-shipments" (or_zero (total_shipments k)) p in
      let p2 := set_text "in-transit" (or_zero (in_transit k)) p1 in
      let p3 := set_text "delivered-today" (or_zero (delivered_today k)) p2 in
      let p4 :=
        set_text "on-time-percentage"
          (or_zero (on_time_percentage k) +:+ "%") p3 in
      (addTrendIndicators k p4, Js.Returned)
  end.

(** [updateCharts(data)], called after [updateKPICards] has returned. *)
Definition updateCharts (k : kpis) (p : page) : page :=
  let p1 :=
    match status_chart p, status_breakdown k with
    | Some c, Some breakdown =>
        set_status_chart
          (Some (mkChart (map fst breakdown) (map snd breakdown)
                   (S (chart_updates c)))) p
    | _, _ => p
    end in
  match performance_chart p1, performance_trend k with
  | Some c, Some (labels, values) =>
      set_performance_chart
        (Some (mkChart labels values (S (chart_updates c)))) p1
  | _, _ => p1
  end.

(** The body of a JSON answer. *)
Record answer := mkAnswer {
  success : bool;
  data : option kpis
}.

(** How a GET ends: [.done] with the answer, or [.fail]. *)
Inductive outcome :=
  | Done (a : answer)
  | Fail.

(** The callbacks of [refreshKPIs]. *)
Definition kpis_callback (o : outcome) (p : page) : page * Js.completion :=
  match o with
  | Done a =>
      if success a then
        match updateKPICards (data a) p with
        | (p1, Js.Threw e) => (p1, Js.Threw e)
        | (p1, Js.Returned) =>
            match data a with
            | Some k => (updateCharts k p1, Js.Returned)
            | None => (p1, Js.Threw "TypeError: data is undefined")
            end
        end
      else (p, Js.Returned)
  | Fail => (set_journal (journal p ++ ["Failed to refresh KPIs"]) p,
             Js.Returned)
  end.

(** The callbacks of [refreshRecentShipments]. The class has no method
    [updateRecentShipments], so a successful answer raises. *)
Definition shipments_callback (o : outcome) (p : page)
    : page * Js.completion :=
  match o with
  | Done a =>
      if success a then
        (p, Js.Threw "TypeError: this.updateRecentShipments is not a function")
      else (p, Js.Returned)
  | Fail => (set_journal (journal p ++ ["Failed to refresh shipments"]) p,
             Js.Returned)
  end.

(** The [i]-th pending GET ends. *)
Definition resolve (i : nat) (o : outcome) (p : page) : page :=
  match gets p !! i with
  | Some e =>
      let p1 := set_gets (delete i (gets p)) p in
      match e with
      | KpisApi => fst (kpis_callback o p1)
      | ShipmentsApi => fst (shipments_callback o p1)
      end
  | None => p
  end.

(** [handleRealtimeUpdate(data)]. *)
Definition handleRealtimeUpdate (d : option Dom.payload) (p : page)
    : page * Js.completion :=
  match d with
  | None => (p, Js.Threw "TypeError: data is undefined")
  | Some d =>
      let p1 :=
        showNotification
          ("Shipment " +:+ Dom.shipment_id d +:+ " updated: "
           +:+ Js.interp (Dom.current_status d)) "info" p in
      (setTimeout RefreshKPIs 2000 p1, Js.Returned)
  end.

(** [handleQuickAction(action)]. *)
Definition handleQuickAction (action : string) (p : page) : page :=
  if bool_decide (action = "bulk_update") then
    set_href (Some "/shipments/bulk-update") p
  else if bool_decide (action = "map_view") then
    set_href (Some "/shipments/map") p
  else if bool_decide (action = "analytics") then
    set_href (Some "/dashboard/analytics") p
  else set_journal (journal p ++ ["Unknown action:"]) p.

(** What can happen on the dashboard, one thing at a time: a status event
    or a KPI event on the socket, time passing, a click on the refresh
    button, a tick of the 30 s refresh interval, the end of a pending
    GET, a quick action. Each runs as a task of its own. *)
Inductive happening :=
  | StatusEvent (d : option Dom.payload)
  | KpiEvent (k : option kpis)
  | Elapsed (dt : nat)
  | RefreshClicked
  | AutoRefresh
  | Ended (i : nat) (o : outcome)
  | QuickAction (action : string).

Definition happen (h : happening) (p : page) : page :=
  match h with
  | StatusEvent d => fst (handleRealtimeUpdate d p)
  | KpiEvent k => fst (updateKPICards k p)
  | Elapsed dt => advance_to (clock p + dt) p
  | RefreshClicked => refreshData p
  | AutoRefresh => refreshKPIs p
  | Ended i o => resolve i o p
  | QuickAction a => handleQuickAction a p
  end.

Definition history (hs : list happening) (p : page) : page :=
  fold_left (fun q h => happen h q) hs p.

(** *** Observations *)

Definition closes_alert (u : nat * task) : bool :=
  match snd u with
  | CloseLastAlert => true
  | _ => false
  end.

Definition removes_overlays (u : nat * task) : bool :=
  match snd u with
  | RemoveLoadingOverlays => true
  | _ => false
  end.


(** Every alert has a timer to close it, an overlay on the page has a
    timer to remove it, timers are in order of due time and none is due
    later than five seconds from now. *)
Definition tidy (p : page) : Prop :=
  length (notices p) = length (List.filter closes_alert (tasks p))
  /\ (0 < overlays p -> existsb removes_overlays (tasks p) = true)
  /\ StronglySorted (fun a b => fst a <= fst b) (tasks p)
  /\ Forall (fun u => fst u <= clock p + 5000) (tasks p).





End DashboardPage.

(** ** Observations on pages and runs

    These definitions are not part of the scripts; the properties below
    are stated with them. *)

Module Observe.
Import Dom.

(** The values of the ticked check boxes. *)
Definition checked_values (p : page) : list string :=
  map cb_value (filter (fun c => cb_checked c = true) (checkboxes p)).

(** The selection holds exactly the ticked rows. *)
Definition synced (p : page) : Prop :=
  selectedShipments p = list_to_set (checked_values p).

(** No two check boxes carry the same shipment id. *)
Definition distinct (p : page) : Prop :=
  NoDup (map cb_value (checkboxes p)).

(** The timers that will close an alert. *)
Definition closes_alert (u : nat * callback) : bool :=
  match snd u with
  | CloseLastAlert => true
  | RemoveRowClass _ _ => false
  end.

Definition closers (p : page) : nat :=
  length (List.filter closes_alert (timers p)).

(** Timers are kept in order of due time. *)
Definition timers_sorted (p : page) : Prop :=
  StronglySorted (fun a b => fst a <= fst b) (timers p).

(** Every alert has a timer to close it, timers are in order of due time,
    and none is due later than five seconds from now. *)
Definition tidy (p : page) : Prop :=
  length (alerts p) = closers p
  /\ timers_sorted p
  /\ Forall (fun u => fst u <= now p + 5000) (timers p).

(** The values of the ticked boxes of a list of check boxes. *)
Definition checked_of (l : list checkbox) : list string :=
  map cb_value (filter (fun c => cb_checked c = true) l).


(** What can happen on the shipments page, one thing at a time. *)
Inductive happening :=
  | Received (m : string * option payload)
  | Elapsed (dt : nat)
  | Toggled (i : nat)
  | SelectedAll (checked : bool)
  | Sent (shipmentId : string) (data : update_data)
  | Resolved (i : nat) (o : Shipments.outcome).

Definition happen (h : happening) (p : page) : page :=
  match h with
  | Received m => Shipments.receive m p
  | Elapsed dt => advance_to (now p + dt) p
  | Toggled i => Shipments.toggle_row i p
  | SelectedAll b => Shipments.handleSelectAll b p
  | Sent id data => Shipments.updateShipmentStatus id data p
  | Resolved i o => Shipments.resolve i o p
  end.

Definition history (hs : list happening) (p : page) : page :=
  fold_left (fun q h => happen h q) hs p.

(** The message an outbound action of the socket client sends. *)
Definition message_of (a : WebSocket.action) : option (string * option string) :=
  match a with
  | WebSocket.Socket _ => None
  | WebSocket.Subscribe id => Some ("subscribe_shipment", Some id)
  | WebSocket.Unsubscribe id => Some ("unsubscribe_shipment", Some id)
  | WebSocket.RequestStatus id => Some ("request_shipment_status", Some id)
  | WebSocket.Ping | WebSocket.Tick => Some ("ping", None)
  end.

(** Is the action the [connect] event of the socket? *)
Definition is_connect (a : WebSocket.action) : bool :=
  match a with
  | WebSocket.Socket WebSocket.Connect => true
  | _ => false
  end.

(** The modal an emergency alert puts on the page. *)
Definition modal_of (d : payload) : modal :=
  mkModal (shipment_id d) (Js.interp (alert_message d))
    (match location d with
     | Some g => Some (lat g, lng g)
     | None => None
     end) true.

(** The modals a sequence of inbound events adds. *)
Definition modals_of (ms : list (string * option payload)) : list modal :=
  omap (fun m =>
          if bool_decide (fst m = "emergency_alert")
          then modal_of <$> snd m else None) ms.




End Observe.

(** * Properties *)

(** ** The outbound side of the socket client *)

Section Outbound.
Import WebSocket.

Lemma emit_grows name id c :
  emitted (emit name id c) = emitted c ++ [(name, id)].
Proof. reflexivity. Qed.

Lemma updateConnectionStatus_emitted st c :
  emitted (updateConnectionStatus st c) = emitted c.
Proof.
  unfold updateConnectionStatus.
  destruct (connectionStatus c); [| reflexivity].
  repeat case_bool_decide; reflexivity.
Qed.

(** The handlers of the connection events never emit. *)
Lemma on_socket_emitted e c : emitted (on_socket e c) = emitted c.
Proof.
  destruct e; cbn [on_socket];
    rewrite ?updateConnectionStatus_emitted; reflexivity.
Qed.

(** An action that emits found the channel connected. *)
Lemma step_emits_only_connected a c :
  emitted (step a c) <> emitted c -> connected c = true.
Proof.
  destruct (connected c) eqn:Hc; [reflexivity |].
  intros Hne. exfalso. apply Hne.
  destruct a; cbn [step keepalive_tick];
    unfold subscribeToShipment, unsubscribeFromShipment,
      requestShipmentStatus, ping;
    rewrite ?Hc, ?on_socket_emitted; reflexivity.
Qed.

(** While no connection event arrives, a disconnected client stays as it
    is through any run of outbound operations and keep-alive ticks. *)
Lemma run_disconnected acts c :
  connected c = false ->
  forallb outbound acts = true ->
  run acts c = c.
Proof.
  intros Hc. unfold run. induction acts as [| a acts IH]; [reflexivity |].
  cbn [forallb fold_left]. intros [Ha Hacts]%andb_prop.
  assert (step a c = c) as ->.
  { destruct a; try discriminate; cbn [step keepalive_tick];
      unfold subscribeToShipment, unsubscribeFromShipment,
        requestShipmentStatus, ping; rewrite Hc; reflexivity. }
  auto.
Qed.

(** C10. While the [connected] flag is false, [subscribeToShipment],
    [unsubscribeFromShipment], [requestShipmentStatus] and [ping] leave
    the client as it is, and so does the keep-alive tick that fires every
    30 seconds; no action whatever, connection events included, adds to
    what the client has emitted. *)
Theorem C10_disconnected_client_emits_nothing (c : client) (id : string) :
  connected c = false ->
  subscribeToShipment id c = c
  /\ unsubscribeFromShipment id c = c
  /\ requestShipmentStatus id c = c
  /\ ping c = c
  /\ keepalive_tick (Some c) = Some c
  /\ keepalive_interval = 30 * 1000
  /\ (forall a, emitted (step a c) = emitted c).
Proof.
  intros Hc.
  unfold subscribeToShipment, unsubscribeFromShipment, requestShipmentStatus,
    keepalive_tick, ping.
  rewrite Hc. repeat split.
  intros a. destruct (decide (emitted (step a c) = emitted c)) as [|Hne];
    [assumption |].
  apply step_emits_only_connected in Hne. congruence.
Qed.

Lemma C10_disconnected_client_witness :
  let c := on_socket Disconnect (on_socket Connect (constructor true None)) in
  connected c = false /\ ping c = c /\ subscribeToShipment "SHP-1001" c = c.
Proof.
  intros c. split; [reflexivity |].
  pose proof (C10_disconnected_client_emits_nothing c "SHP-1001" eq_refl)
    as (Hs & _ & _ & Hp & _).
  split; assumption.
Defined.

End Outbound.

(** ** The selection and the "select all" control *)

Section Selection.
Import Dom Shipments.

Lemma updateBulkActions_checkboxes p :
  checkboxes (updateBulkActions p) = checkboxes p.
Proof. reflexivity. Qed.





End Selection.

(** ** Rows: selection by id and update in place *)

Section Rows.
Import Dom Effect.

Lemma update_rows_lookup targets f rs k :
  update_rows targets f rs !! k
  = (fun r => if bool_decide (k ∈ targets) then f r else r) <$> rs !! k.
Proof. unfold update_rows. apply list_lookup_imap. Qed.


Lemma update_rows_nil f rs : update_rows [] f rs = rs.
Proof.
  apply list_eq. intros k. rewrite update_rows_lookup.
  destruct (rs !! k); [| reflexivity]. cbn.
  rewrite bool_decide_eq_false_2; [reflexivity | apply not_elem_of_nil].
Qed.

Lemma update_rows_compose targets f g rs :
  update_rows targets g (update_rows targets f rs)
  = update_rows targets (fun r => g (f r)) rs.
Proof.
  apply list_eq. intros k. rewrite !update_rows_lookup.
  destruct (rs !! k); [| reflexivity]. cbn.
  case_bool_decide; reflexivity.
Qed.

Lemma update_rows_ext targets f g rs :
  (forall r, f r = g r) ->
  update_rows targets f rs = update_rows targets g rs.
Proof.
  intros Hfg. apply list_eq. intros k. rewrite !update_rows_lookup.
  destruct (rs !! k); [| reflexivity]. cbn. rewrite Hfg. reflexivity.
Qed.

(** Updating the rows at [i] and then those at [rest] with an idempotent
    function is updating those at [i :: rest]. *)
Lemma update_rows_cons i rest f rs :
  (forall r, f (f r) = f r) ->
  update_rows rest f (update_rows [i] f rs) = update_rows (i :: rest) f rs.
Proof.
  intros Hf. apply list_eq. intros k. rewrite !update_rows_lookup.
  destruct (rs !! k) as [r |]; [| reflexivity]. cbn. f_equal.
  destruct (decide (k = i)) as [-> | Hne].
  - rewrite (bool_decide_eq_true_2 (i ∈ [i])) by left.
    rewrite (bool_decide_eq_true_2 (i ∈ i :: rest)) by left.
    case_bool_decide; [apply Hf | reflexivity].
  - rewrite (bool_decide_eq_false_2 (k ∈ [i]))
      by (rewrite list_elem_of_singleton; exact Hne).
    apply (f_equal (fun b : bool => if b then f r else r)).
    apply bool_decide_ext. rewrite elem_of_cons. tauto.
Qed.

Lemma update_rows_ids targets f rs :
  (forall r, row_id (f r) = row_id r) ->
  map row_id (update_rows targets f rs) = map row_id rs.
Proof.
  intros Hf. apply list_eq. intros k.
  rewrite !list_lookup_fmap, update_rows_lookup.
  destruct (rs !! k); [| reflexivity]. cbn.
  case_bool_decide; rewrite ?Hf; reflexivity.
Qed.

(** The selection depends on the ids of the rows only. *)
Lemma matching_from_ids k id rs rs' :
  map row_id rs = map row_id rs' ->
  matching_from k id rs = matching_from k id rs'.
Proof.
  revert k rs'. induction rs as [| r rs IH]; intros k [| r' rs'] H;
    try discriminate; [reflexivity |].
  injection H as Hr Hrs. cbn [matching_from]. rewrite Hr.
  rewrite (IH (S k) rs' Hrs). reflexivity.
Qed.

Lemma matching_ids id rs rs' :
  map row_id rs = map row_id rs' -> matching id rs = matching id rs'.
Proof. apply matching_from_ids. Qed.

Lemma elem_of_matching_from i k id rs :
  i ∈ matching_from k id rs
  <-> exists r, k <= i /\ rs !! (i - k) = Some r /\ row_id r = id.
Proof.
  revert k. induction rs as [| r rs IH]; intros k; cbn [matching_from].
  - split; [intros H; inversion H | intros (r & _ & H & _); discriminate].
  - case_bool_decide as Hid.
    + rewrite elem_of_cons, IH. split.
      * intros [-> | (r' & Hk & Hl & Hr)].
        -- exists r. rewrite Nat.sub_diag. auto.
        -- exists r'. repeat split; [lia | | assumption].
           replace (i - k) with (S (i - S k)) by lia. exact Hl.
      * intros (r' & Hk & Hl & Hr).
        destruct (decide (i = k)) as [-> | Hne]; [left; reflexivity |].
        right. exists r'. repeat split; [lia | | assumption].
        replace (i - k) with (S (i - S k)) in Hl by lia. exact Hl.
    + rewrite IH. split.
      * intros (r' & Hk & Hl & Hr). exists r'.
        repeat split; [lia | | assumption].
        replace (i - k) with (S (i - S k)) by lia. exact Hl.
      * intros (r' & Hk & Hl & Hr).
        destruct (decide (i = k)) as [-> | Hne].
        -- rewrite Nat.sub_diag in Hl. injection Hl as ->. contradiction.
        -- exists r'. repeat split; [lia | | assumption].
           replace (i - k) with (S (i - S k)) in Hl by lia. exact Hl.
Qed.

(** A position is selected iff the row there has the id. *)
Lemma elem_of_matching i id rs :
  i ∈ matching id rs <-> exists r, rs !! i = Some r /\ row_id r = id.
Proof.
  unfold matching. rewrite elem_of_matching_from. rewrite Nat.sub_0_r.
  split; [intros (r & _ & H) | intros (r & H)]; exists r;
    [exact H | split; [lia | exact H]].
Qed.

Lemma matching_nil_iff id rs :
  matching id rs = [] <-> forall k r, rs !! k = Some r -> row_id r <> id.
Proof.
  split.
  - intros Hnil k r Hk Hid.
    assert (k ∈ matching id rs) as Hin by (apply elem_of_matching; eauto).
    rewrite Hnil in Hin. inversion Hin.
  - intros Hall. destruct (matching id rs) as [| k ks] eqn:Hm; [easy |].
    assert (k ∈ matching id rs) as Hin by (rewrite Hm; left).
    apply elem_of_matching in Hin as (r & Hk & Hid).
    exfalso. exact (Hall k r Hk Hid).
Qed.



(** Adding a class name twice is adding it once. *)
Lemma add_class1_idem name cl :
  JQuery.add_class1 name (JQuery.add_class1 name cl)
  = JQuery.add_class1 name cl.
Proof.
  unfold JQuery.add_class1.
  destruct (bool_decide (name ∈ cl)) eqn:Hin.
  - rewrite Hin. reflexivity.
  - rewrite bool_decide_eq_true_2; [reflexivity |].
    apply elem_of_app. right. left.
Qed.

Lemma warned_cleared st r : warned st (cleared r) = warned st r.
Proof. reflexivity. Qed.

Lemma warned_idem st r : warned st (warned st r) = warned st r.
Proof.
  unfold warned. cbn [row_id row_class]. f_equal.
  change (JQuery.addClass "table-warning")
    with (JQuery.add_class1 "table-warning").
  apply add_class1_idem.
Qed.

Lemma informed_idem st r : informed st (informed st r) = informed st r.
Proof.
  unfold informed. cbn [row_id row_class]. f_equal.
  change (JQuery.addClass "table-info") with (JQuery.add_class1 "table-info").
  apply add_class1_idem.
Qed.

Lemma cleared_idem r : cleared (cleared r) = cleared r.
Proof. reflexivity. Qed.

End Rows.

(** ** What a status event does to the rows *)

Section StatusEvent.
Import Dom Effect.

Lemma shipments_effect_id d r : row_id (shipments_effect d r) = row_id r.
Proof. unfold shipments_effect. destruct (current_status d); reflexivity. Qed.

Lemma shipments_effect_idem d r :
  shipments_effect d (shipments_effect d r) = shipments_effect d r.
Proof.
  unfold shipments_effect. destruct (current_status d);
    [apply warned_idem | apply cleared_idem].
Qed.

Lemma handleRealtimeUpdate_rows d p :
  rows (fst (Shipments.handleRealtimeUpdate (Some d) p))
  = update_rows (matching (shipment_id d) (rows p)) (shipments_effect d)
      (rows p).
Proof.
  unfold Shipments.handleRealtimeUpdate, shipments_effect.
  destruct (matching (shipment_id d) (rows p)) as [| i row] eqn:Hm.
  - cbn -[update_rows]. rewrite update_rows_nil. reflexivity.
  - destruct (current_status d) as [st |]; cbn -[update_rows];
      [| reflexivity].
    rewrite update_rows_compose. apply update_rows_ext. reflexivity.
Qed.

Lemma handleRealtimeUpdate_none p :
  Shipments.handleRealtimeUpdate None p
  = (p, Js.Threw "TypeError: data is undefined").
Proof. reflexivity. Qed.

(** [each_row] touches rows and timers only. *)
Lemma each_row_rows ts d p :
  rows (fst (WebSocket.each_row ts d p))
  = match current_status d with
    | Some st => update_rows ts (informed st) (rows p)
    | None => update_rows (take 1 ts) cleared (rows p)
    end.
Proof.
  revert p. induction ts as [| i rest IH]; intros p; cbn [WebSocket.each_row].
  - destruct (current_status d); cbn -[update_rows];
      rewrite update_rows_nil; reflexivity.
  - destruct (current_status d) as [st |] eqn:Hst.
    + rewrite IH. cbn -[update_rows]. rewrite update_rows_compose.
      rewrite (update_rows_ext [i] _ (informed st)) by reflexivity.
      apply update_rows_cons, informed_idem.
    + reflexivity.
Qed.

Lemma each_row_completion ts d p :
  snd (WebSocket.each_row ts d p)
  = match current_status d, ts with
    | None, _ :: _ =>
        Js.Threw "TypeError: data.current_status is undefined"
    | _, _ => Js.Returned
    end.
Proof.
  revert p. induction ts as [| i rest IH]; intros p; cbn [WebSocket.each_row].
  - destruct (current_status d); reflexivity.
  - destruct (current_status d) as [st |] eqn:Hst; [| reflexivity].
    rewrite IH. destruct rest; reflexivity.
Qed.

Lemma each_row_frame ts d p :
  let q := fst (WebSocket.each_row ts d p) in
  detail q = detail p /\ toasts q = toasts p /\ alerts q = alerts p
  /\ modals q = modals p /\ console q = console p
  /\ triggered q = triggered p /\ xhr q = xhr p.
Proof.
  revert p. induction ts as [| i rest IH]; intros p; cbn [WebSocket.each_row].
  - repeat split.
  - destruct (current_status d) as [st |]; [| repeat split].
    match goal with
    | |- context [WebSocket.each_row rest d ?q] => exact (IH q)
    end.
Qed.

Lemma updateShipmentDisplay_rows d p :
  rows (fst (WebSocket.updateShipmentDisplay (Some d) p))
  = websocket_rows d (rows p).
Proof.
  unfold WebSocket.updateShipmentDisplay, websocket_rows.
  pose proof (each_row_rows (matching (shipment_id d) (rows p)) d p) as Hr.
  destruct (WebSocket.each_row _ d p) as [q [| e]]; cbn [fst] in Hr.
  - destruct (detail_visible (detail q) && _); exact Hr.
  - exact Hr.
Qed.

Lemma handleShipmentUpdate_rows d p :
  rows (fst (WebSocket.handleShipmentUpdate (Some d) p))
  = websocket_rows d (rows p).
Proof.
  unfold WebSocket.handleShipmentUpdate.
  pose proof (updateShipmentDisplay_rows d
                (trigger "shipment:update" (Some d) p)) as Hr.
  destruct (WebSocket.updateShipmentDisplay _ _) as [q [| e]]; exact Hr.
Qed.

Lemma websocket_rows_ids d rs :
  map row_id (websocket_rows d rs) = map row_id rs.
Proof.
  unfold websocket_rows. destruct (current_status d);
    apply update_rows_ids; reflexivity.
Qed.



End StatusEvent.

(** ** The scenario of the specification: shipment SHP-1001 *)

Section Shp1001.
Import Dom Effect Scenario.

Example shp1001_rows_shipments :
  rows (fst (Shipments.handleRealtimeUpdate (Some shp1001_in_transit)
               shp1001_page))
  = [mkRow "SHP-1001" ["shipment-row"; "table-warning"]
       ["badge"; "status-badge"; "status-in-transit"] "In Transit";
     mkRow "SHP-1002" ["shipment-row"]
       ["badge"; "status-badge"; "status-delivered"] "Delivered"].
Proof. vm_compute. reflexivity. Qed.

Example shp1001_rows_websocket :
  rows (fst (WebSocket.handleShipmentUpdate (Some shp1001_in_transit)
               shp1001_page))
  = [mkRow "SHP-1001" ["shipment-row"; "table-info"]
       ["badge"; "status-badge"; "status-in-transit"] "In Transit";
     mkRow "SHP-1002" ["shipment-row"]
       ["badge"; "status-badge"; "status-delivered"] "Delivered"].
Proof. vm_compute. reflexivity. Qed.

(** Only the first space of a status becomes a dash, so a status of three
    words yields two class names. *)
Example out_for_delivery_classes :
  JQuery.addClass (Shipments.badge_classes "Out For Delivery") []
  = ["badge"; "status-badge"; "status-out-for"; "delivery"].
Proof. vm_compute. reflexivity. Qed.


End Shp1001.

(** ** The same status event, twice *)

Section Twice.
Import Dom Effect Scenario.

Lemma shipments_rows_twice d rs :
  let once :=
    update_rows (matching (shipment_id d) rs) (shipments_effect d) rs in
  update_rows (matching (shipment_id d) once) (shipments_effect d) once
  = once.
Proof.
  intros once.
  rewrite (matching_ids (shipment_id d) once rs)
    by (apply update_rows_ids, shipments_effect_id).
  unfold once. rewrite update_rows_compose.
  apply update_rows_ext, shipments_effect_idem.
Qed.

Lemma websocket_rows_twice d rs :
  websocket_rows d (websocket_rows d rs) = websocket_rows d rs.
Proof.
  unfold websocket_rows at 1.
  rewrite (matching_ids (shipment_id d) (websocket_rows d rs) rs)
    by apply websocket_rows_ids.
  unfold websocket_rows. destruct (current_status d) as [st |].
  - rewrite update_rows_compose. apply update_rows_ext, informed_idem.
  - rewrite update_rows_compose. apply update_rows_ext, cleared_idem.
Qed.

Lemma display_throws_ids d rs rs' :
  map row_id rs = map row_id rs' ->
  display_throws d rs = display_throws d rs'.
Proof.
  intros H. unfold display_throws.
  rewrite (matching_ids _ rs rs' H). reflexivity.
Qed.

Lemma detail_effect_idem d v :
  detail_effect d (detail_effect d v) = detail_effect d v.
Proof.
  unfold detail_effect.
  destruct (detail_visible v && _) eqn:Hv; cbn [detail_visible detail_shipment];
    rewrite Hv; [| reflexivity].
  destruct (current_status d); reflexivity.
Qed.

Lemma updateShipmentDisplay_detail d p :
  detail (fst (WebSocket.updateShipmentDisplay (Some d) p))
  = if display_throws d (rows p) then detail p
    else detail_effect d (detail p).
Proof.
  unfold WebSocket.updateShipmentDisplay, display_throws, detail_effect.
  pose proof (each_row_completion (matching (shipment_id d) (rows p)) d p)
    as Hc.
  destruct (each_row_frame (matching (shipment_id d) (rows p)) d p)
    as (Hd & _).
  destruct (WebSocket.each_row _ d p) as [q c]. cbn [fst snd] in *.
  rewrite Hd. subst c.
  destruct (current_status d) as [st |],
    (matching (shipment_id d) (rows p)) as [| i ms];
    try exact Hd;
    match goal with
    | |- context [detail_visible ?v && ?b] => destruct (detail_visible v && b)
    end; cbn; rewrite ?Hd; reflexivity.
Qed.

Lemma handleShipmentUpdate_detail d p :
  detail (fst (WebSocket.handleShipmentUpdate (Some d) p))
  = if display_throws d (rows p) then detail p
    else detail_effect d (detail p).
Proof.
  unfold WebSocket.handleShipmentUpdate.
  pose proof (updateShipmentDisplay_detail d
                (trigger "shipment:update" (Some d) p)) as Hd.
  destruct (WebSocket.updateShipmentDisplay _ _) as [q [| e]]; exact Hd.
Qed.

(** With a status on board the handlers return, and each leaves one more
    notification. *)
Lemma handleRealtimeUpdate_alerts d st p :
  current_status d = Some st ->
  alerts (fst (Shipments.handleRealtimeUpdate (Some d) p))
  = alerts p
    ++ [mkAlert "alert-info" None (shipment_id d +:+ " updated: " +:+ st)].
Proof.
  intros Hst. unfold Shipments.handleRealtimeUpdate. rewrite Hst.
  destruct (matching (shipment_id d) (rows p)); reflexivity.
Qed.

Lemma updateShipmentDisplay_returns d st p :
  current_status d = Some st ->
  snd (WebSocket.updateShipmentDisplay (Some d) p) = Js.Returned
  /\ toasts (fst (WebSocket.updateShipmentDisplay (Some d) p)) = toasts p.
Proof.
  intros Hst. unfold WebSocket.updateShipmentDisplay.
  pose proof (each_row_completion (matching (shipment_id d) (rows p)) d p)
    as Hc.
  destruct (each_row_frame (matching (shipment_id d) (rows p)) d p)
    as (_ & Ht & _).
  destruct (WebSocket.each_row _ d p) as [q c]. cbn [fst snd] in *.
  rewrite Hst in Hc. subst c.
  destruct (detail_visible (detail q) && _); split; assumption || reflexivity.
Qed.

Lemma handleShipmentUpdate_toasts d st p :
  current_status d = Some st ->
  toasts (fst (WebSocket.handleShipmentUpdate (Some d) p))
  = toasts p
    ++ [mkToast "bg-info"
          ("Shipment " +:+ shipment_id d +:+ " updated: " +:+ st) true].
Proof.
  intros Hst. unfold WebSocket.handleShipmentUpdate.
  destruct (updateShipmentDisplay_returns d st
              (trigger "shipment:update" (Some d) p) Hst) as [Hc Ht].
  destruct (WebSocket.updateShipmentDisplay _ _) as [q c].
  cbn [fst snd] in *. subst c. cbn. rewrite Ht, Hst. reflexivity.
Qed.

(** C3, as the code has it. Applying the same status event a second time
    leaves the table rows (badge classes, status text, highlight class)
    and the detail view exactly as the first application left them, in
    shipments.js and in websocket.js; the page as a whole is not the same,
    for each application of an event that carries a status appends one
    more notification. *)
Theorem C3_status_event_twice_same_rows (data : option payload) (p : page) :
  let s1 := fst (Shipments.handleRealtimeUpdate data p) in
  let s2 := fst (Shipments.handleRealtimeUpdate data s1) in
  let w1 := fst (WebSocket.handleShipmentUpdate data p) in
  let w2 := fst (WebSocket.handleShipmentUpdate data w1) in
  rows s2 = rows s1
  /\ rows w2 = rows w1
  /\ detail w2 = detail w1
  /\ (forall d st, data = Some d -> current_status d = Some st ->
        length (alerts s2) = S (length (alerts s1))
        /\ length (toasts w2) = S (length (toasts w1))).
Proof.
  destruct data as [d |]; [| repeat split; intros; discriminate].
  cbv zeta. split; [| split; [| split]].
  - rewrite !handleRealtimeUpdate_rows. apply shipments_rows_twice.
  - rewrite !handleShipmentUpdate_rows. apply websocket_rows_twice.
  - rewrite !handleShipmentUpdate_detail, !handleShipmentUpdate_rows.
    rewrite (display_throws_ids d (websocket_rows d (rows p)) (rows p))
      by apply websocket_rows_ids.
    destruct (display_throws d (rows p)); [reflexivity |].
    apply detail_effect_idem.
  - intros d' st [= <-] Hst. split.
    + rewrite (handleRealtimeUpdate_alerts d st _ Hst), length_app.
      cbn. lia.
    + rewrite (handleShipmentUpdate_toasts d st _ Hst), length_app.
      cbn. lia.
Qed.

Lemma C3_status_event_twice_witness :
  let s1 := fst (Shipments.handleRealtimeUpdate (Some shp1001_in_transit)
                   shp1001_page) in
  let s2 := fst (Shipments.handleRealtimeUpdate (Some shp1001_in_transit)
                   s1) in
  rows s2 = rows s1 /\ length (alerts s2) = S (length (alerts s1)).
Proof.
  intros s1 s2.
  destruct (C3_status_event_twice_same_rows (Some shp1001_in_transit)
              shp1001_page) as (Hrows & _ & _ & Hmore).
  split; [exact Hrows |].
  exact (proj1 (Hmore shp1001_in_transit "In Transit" eq_refl eq_refl)).
Defined.

(** C3 as stated fails: after the second application of the scenario's
    event the page holds two notifications, after the first it held one. *)
Lemma C3_second_application_changes_page :
  let once := fst (Shipments.handleRealtimeUpdate (Some shp1001_in_transit)
                     shp1001_page) in
  let twice := fst (Shipments.handleRealtimeUpdate (Some shp1001_in_transit)
                      once) in
  twice <> once
  /\ length (alerts once) = 1
  /\ length (alerts twice) = 2.
Proof.
  intros once twice. split; [| split; reflexivity].
  intros Heq. apply (f_equal (fun q => length (alerts q))) in Heq.
  vm_compute in Heq. discriminate.
Qed.

End Twice.

(** ** Remote events while a local update is in flight *)

Section InFlight.
Import Dom Effect Scenario.







End InFlight.

(** ** Refreshing the table *)

Section Refresh.
Import Dom Effect Scenario.

(** C2, as the code has it. A refresh is a reload of the page, and the
    script of the reloaded page starts with an empty selection: whatever
    was selected and whatever is rendered next, the selection after the
    refresh is empty. It is therefore a subset of the rendered ids, and it
    equals the selection before the refresh only when that was empty. *)
Theorem C2_refresh_starts_with_empty_selection (p fresh : page) :
  let q := Shipments.reload fresh (Shipments.refreshData p) in
  selectedShipments q = ∅
  /\ selectedShipments q ⊆ rendered_ids q
  /\ (selectedShipments q = selectedShipments p <-> selectedShipments p = ∅).
Proof.
  cbv zeta.
  assert (selectedShipments (Shipments.reload fresh (Shipments.refreshData p))
          = ∅) as Hq by reflexivity.
  rewrite Hq. split; [reflexivity |]. split; [apply empty_subseteq |].
  split; intros H; congruence.
Qed.

Lemma abc_selected_selection :
  selectedShipments abc_selected = {[ "A"; "B"; "C" ]}.
Proof.
  apply set_eq. intros x. cbn. set_solver.
Qed.

(** C2 as stated fails: with A, B, C selected, a refresh that renders B,
    C, D leaves nothing selected, not B and C; and a refresh that renders
    A, B, C again does not keep the selection. *)
Lemma C2_refresh_drops_selection :
  selectedShipments abc_selected = {[ "A"; "B"; "C" ]}
  /\ rendered_ids bcd_page = {[ "B"; "C"; "D" ]}
  /\ selectedShipments
       (Shipments.reload bcd_page (Shipments.refreshData abc_selected))
     <> {[ "B"; "C" ]}
  /\ selectedShipments
       (Shipments.reload abc_page (Shipments.refreshData abc_selected))
     <> selectedShipments abc_selected.
Proof.
  split; [apply abc_selected_selection |].
  split; [apply set_eq; intros x; cbn; set_solver |].
  split.
  - change (selectedShipments
              (Shipments.reload bcd_page (Shipments.refreshData abc_selected)))
      with (∅ : gset string).
    intros H. assert ("B" ∈ (∅ : gset string)) as Hin
      by (rewrite H; set_solver).
    set_solver.
  - rewrite abc_selected_selection.
    change (selectedShipments
              (Shipments.reload abc_page (Shipments.refreshData abc_selected)))
      with (∅ : gset string).
    intros H. assert ("A" ∈ (∅ : gset string)) as Hin
      by (rewrite H; set_solver).
    set_solver.
Qed.

End Refresh.

(** ** The answer to a status update *)

Section Answer.
Import Dom Effect Scenario.

Lemma showNotification_reload m t p :
  reload_requested (Shipments.showNotification m t p) = reload_requested p.
Proof. reflexivity. Qed.

(** A reload is requested iff the server answered with [success]. *)
Lemma resolve_reload_iff i o p rq :
  xhr p !! i = Some rq ->
  reload_requested p = false ->
  reload_requested (Shipments.resolve i o p) = true
  <-> exists r, o = Shipments.Answered r /\ Shipments.success r = true.
Proof.
  intros Hi Hp. unfold Shipments.resolve. rewrite Hi.
  destruct o as [r | j].
  - unfold Shipments.on_success. destruct (Shipments.success r) eqn:Hs.
    + split; [intros _; exists r; auto | reflexivity].
    + cbn. rewrite Hp. split; [discriminate |].
      intros (r' & [= <-] & Hr'). congruence.
  - cbn. rewrite Hp. split; [discriminate |].
    intros (r' & [=] & _).
Qed.

(** The [error:] callback falls back on a generic message. *)
Lemma on_error_message j p :
  alerts (Shipments.on_error j p)
  = alerts p
    ++ [mkAlert "alert-danger" None
          ("Update failed: "
           +:+ match j with
               | Some r => Js.or_else (Shipments.error r) "Server error"
               | None => "Server error"
               end)].
Proof. destruct j; reflexivity. Qed.

(** C8 at the answer [{success: false}] that carries no [error]: no
    reload is requested, and the notification reads "Failed to update
    status: undefined"; the [success:] callback has no fallback text,
    unlike the [error:] callback. *)
Theorem C8_failure_answer_without_error_text :
  let p := Shipments.updateShipmentStatus "SHP-1001" delivered shp1001_page in
  let q := Shipments.resolve 0
             (Shipments.Answered (Shipments.mkResponse false None)) p in
  alerts q
  = [mkAlert "alert-danger" None "Failed to update status: undefined"]
  /\ reload_requested q = false
  /\ alerts (Shipments.resolve 0 (Shipments.Failed None) p)
     = [mkAlert "alert-danger" None "Update failed: Server error"].
Proof. vm_compute. repeat split. Qed.

End Answer.

(** ** The event loop *)

Section EventLoop.
Import Dom.

Lemma fire_timers cb p : timers (fire cb p) = timers p.
Proof. destruct cb; reflexivity. Qed.


Lemma elem_of_insert_timer t u ts :
  u ∈ insert_timer t ts <-> u = t \/ u ∈ ts.
Proof.
  induction ts as [| v ts IH]; cbn [insert_timer].
  - rewrite list_elem_of_singleton, elem_of_nil. tauto.
  - destruct (fst v <=? fst t)%nat.
    + rewrite !elem_of_cons, IH. tauto.
    + rewrite !elem_of_cons. tauto.
Qed.



(** One step of [run_timers]: the first timer is due and runs, or it is
    not due yet and time just passes. *)
Lemma run_timers_fire fuel t p due cb rest :
  timers p = (due, cb) :: rest -> due <= t ->
  run_timers (S fuel) t p
  = run_timers fuel t
      (fire cb (set_timers rest (set_now (Nat.max (now p) due) p))).
Proof.
  intros Hts Hle. cbn [run_timers]. rewrite Hts.
  apply Nat.leb_le in Hle. rewrite Hle. reflexivity.
Qed.

Lemma run_timers_wait fuel t p due cb rest :
  timers p = (due, cb) :: rest -> t < due ->
  run_timers (S fuel) t p = set_now (Nat.max (now p) t) p.
Proof.
  intros Hts Hlt. cbn [run_timers]. rewrite Hts.
  apply Nat.leb_gt in Hlt. rewrite Hlt. reflexivity.
Qed.

Lemma insert_timer_behind t u :
  fst u <= fst t -> insert_timer t [u] = [u; t].
Proof.
  intros Hle. cbn [insert_timer]. apply Nat.leb_le in Hle. rewrite Hle.
  reflexivity.
Qed.


End EventLoop.

(** ** Notifications and their timers *)

Section Notifications.
Import Dom Effect Scenario.

(** A notification is appended behind the ones on the page. *)
Lemma showNotification_appends m t p :
  alerts (Shipments.showNotification m t p)
  = alerts p
    ++ [mkAlert (if bool_decide (t = "error") then "alert-danger"
                 else "alert-" +:+ t) None m].
Proof. reflexivity. Qed.

(** Its timer is due 5000 ms after the call, and the timers that were
    pending stay pending with their due times. *)
Lemma showNotification_timer m t p u :
  u ∈ timers (Shipments.showNotification m t p)
  <-> u = ((now p + 5000)%nat, CloseLastAlert) \/ u ∈ timers p.
Proof.
  unfold Shipments.showNotification, setTimeout.
  cbn [timers set_timers set_alerts now]. apply elem_of_insert_timer.
Qed.

(** The closure of every such timer closes the alert that is last when
    it runs. *)
Lemma fire_closes_last_alert p a :
  alerts (fire CloseLastAlert (set_alerts (alerts p ++ [a]) p)) = alerts p.
Proof. cbn. apply removelast_last. Qed.

(** Two notifications on a page without alerts and timers, the second
    one enqueued before the first is due: when the timer of the first one
    runs, it is the second notification that goes. *)
Lemma earlier_timer_closes_later_notice a b p t1 :
  timers p = [] -> alerts p = [] ->
  now p < t1 < now p + 5000 ->
  let q :=
    Shipments.showNotification b "info"
      (advance_to t1 (Shipments.showNotification a "info" p)) in
  map alert_body (alerts (advance_to (now p + 5000) q)) = [a].
Proof.
  intros Hts Hal Ht1.
  set (p1 := Shipments.showNotification a "info" p).
  assert (timers p1 = [((now p + 5000)%nat, CloseLastAlert)]) as Ht1s.
  { unfold p1, Shipments.showNotification, setTimeout.
    cbn [timers set_timers set_alerts now]. rewrite Hts. reflexivity. }
  assert (advance_to t1 p1 = set_now (Nat.max (now p1) t1) p1) as ->.
  { unfold advance_to. rewrite Ht1s.
    apply (run_timers_wait _ _ _ _ _ _ Ht1s). lia. }
  set (p2 := set_now _ p1).
  assert (alerts p2 = [mkAlert "alert-info" None a]) as Hal2.
  { unfold p2, p1, Shipments.showNotification, setTimeout.
    cbn [alerts set_now set_timers set_alerts]. rewrite Hal. reflexivity. }
  assert (now p2 = Nat.max (now p) t1) as Hnow2 by reflexivity.
  intros q.
  assert (timers q
          = [((now p + 5000)%nat, CloseLastAlert);
             ((Nat.max (now p) t1 + 5000)%nat, CloseLastAlert)]) as Htq.
  { unfold q, Shipments.showNotification, setTimeout.
    cbn [timers set_timers set_alerts now]. rewrite Hnow2.
    change (timers p2) with (timers p1). rewrite Ht1s.
    apply insert_timer_behind. cbn [fst]. lia. }
  assert (alerts q
          = [mkAlert "alert-info" None a; mkAlert "alert-info" None b])
    as Halq.
  { unfold q, Shipments.showNotification, setTimeout.
    cbn [alerts set_timers set_alerts]. rewrite Hal2. reflexivity. }
  unfold advance_to. rewrite Htq. cbn [length].
  rewrite (run_timers_fire _ _ _ _ _ _ Htq) by lia.
  erewrite run_timers_wait;
    [| rewrite fire_timers; reflexivity | lia].
  cbn [alerts set_now fire set_alerts set_timers]. rewrite Halq. reflexivity.
Qed.

(** C7 at two notifications, A enqueued at time 0 and B at time 1000:
    they are rendered in arrival order, their timers are due at 5000 and
    6000, but at 5000 the timer created for A closes B, the last alert at
    that moment, and A stays until the timer created for B closes it at
    6000. The same holds for the dashboard's notifications. *)
Theorem C7_timer_closes_latest_alert :
  map alert_body (alerts two_notices) = ["A"; "B"]
  /\ map fst (timers two_notices) = [5000; 6000]
  /\ map alert_body (alerts (advance_to 4999 two_notices)) = ["A"; "B"]
  /\ map alert_body (alerts (advance_to 5000 two_notices)) = ["A"]
  /\ map alert_body (alerts (advance_to 5999 two_notices)) = ["A"]
  /\ map alert_body (alerts (advance_to 6000 two_notices)) = []
  /\ map alert_body (alerts (advance_to 5000 two_dashboard_notices)) = ["A"].
Proof. vm_compute. repeat split. Qed.

End Notifications.

(** ** Emergency alerts *)

Section Emergency.
Import Dom Effect Scenario.





End Emergency.

(** ** Events that fail *)

Section Containment.
Import Dom Effect Scenario.

(** *** shipments.js *)





(** *** websocket.js *)

Lemma each_location_frame ts d p :
  let q := fst (WebSocket.each_location ts d p) in
  rows q = rows p /\ console q = console p.
Proof.
  revert p. induction ts as [| i rest IH]; intros p;
    cbn [WebSocket.each_location]; [split; reflexivity |].
  destruct (location d) as [g |]; [| split; reflexivity].
  match goal with
  | |- context [WebSocket.each_location rest d ?q] => exact (IH q)
  end.
Qed.









End Containment.

(** * Further properties of the scripts *)

(** ** The selection stays in step with the check boxes *)

Section SelectionSync.
Import Dom Effect Observe.

Lemma checked_of_app l1 l2 :
  checked_of (l1 ++ l2) = checked_of l1 ++ checked_of l2.
Proof. unfold checked_of. rewrite filter_app, map_app. reflexivity. Qed.

Lemma checked_of_cons c l :
  checked_of (c :: l)
  = if cb_checked c then cb_value c :: checked_of l else checked_of l.
Proof.
  unfold checked_of. rewrite filter_cons.
  destruct (cb_checked c) eqn:Hc.
  - rewrite decide_True by reflexivity. reflexivity.
  - rewrite decide_False by discriminate. reflexivity.
Qed.

Lemma checked_of_subset l v : v ∈ checked_of l -> v ∈ map cb_value l.
Proof.
  unfold checked_of. rewrite !list_elem_of_fmap.
  intros (c & -> & Hc). exists c. split; [reflexivity |].
  apply list_elem_of_filter in Hc. tauto.
Qed.

Lemma checked_of_NoDup l : NoDup (map cb_value l) -> NoDup (checked_of l).
Proof.
  induction l as [| c l IH]; [intros _; constructor |].
  cbn [map]. intros [Hc Hl]%NoDup_cons. rewrite checked_of_cons.
  destruct (cb_checked c); [| auto].
  apply NoDup_cons. split; [| auto].
  intros Hin. apply Hc, checked_of_subset, Hin.
Qed.

(** What a click on the [i]-th check box leaves behind. *)
Lemma toggle_row_fields p i c :
  checkboxes p !! i = Some c ->
  let c' := mkCheckbox (cb_value c) (negb (cb_checked c)) in
  let q := Shipments.toggle_row i p in
  checkboxes q = <[i := c']> (checkboxes p)
  /\ selectedShipments q
     = (if cb_checked c then selectedShipments p ∖ {[cb_value c]}
        else selectedShipments p ∪ {[cb_value c]})
  /\ selectedCount q = size (selectedShipments q)
  /\ bulkActionsPanel q = (0 <? size (selectedShipments q))%nat.
Proof.
  intros Hc. unfold Shipments.toggle_row. rewrite Hc.
  unfold Shipments.handleShipmentSelect. cbn [cb_checked cb_value].
  destruct (cb_checked c); repeat split.
Qed.

Lemma toggle_row_out_of_range p i :
  length (checkboxes p) <= i -> Shipments.toggle_row i p = p.
Proof.
  intros Hi. unfold Shipments.toggle_row.
  rewrite (lookup_ge_None_2 _ _ Hi). reflexivity.
Qed.

(** The ticked values before and after the click. *)
Lemma checked_of_toggle l i c :
  l !! i = Some c ->
  NoDup (map cb_value l) ->
  let c' := mkCheckbox (cb_value c) (negb (cb_checked c)) in
  (list_to_set (checked_of (<[i := c']> l)) : gset string)
  = if cb_checked c then list_to_set (checked_of l) ∖ {[cb_value c]}
    else list_to_set (checked_of l) ∪ {[cb_value c]}.
Proof.
  intros Hi Hnd c'.
  pose proof (lookup_lt_Some _ _ _ Hi) as Hlt.
  rewrite (insert_take_drop l i c' Hlt).
  pose proof (take_drop_middle l i c Hi) as Heq.
  set (l1 := take i l) in *. set (l2 := drop (S i) l) in *.
  clearbody l1 l2. clear Hi Hlt. subst l.
  rewrite map_app in Hnd. cbn [map] in Hnd.
  apply NoDup_app in Hnd as (_ & Hfront & [Hback _]%NoDup_cons).
  assert (cb_value c ∉ (list_to_set (checked_of l1) : gset string))
    as H1.
  { rewrite elem_of_list_to_set. intros Hin%checked_of_subset.
    apply (Hfront _ Hin). left. }
  assert (cb_value c ∉ (list_to_set (checked_of l2) : gset string)) as H2.
  { rewrite elem_of_list_to_set. intros Hin%checked_of_subset.
    exact (Hback Hin). }
  rewrite !checked_of_app, !checked_of_cons, !list_to_set_app_L.
  unfold c'. cbn [cb_checked cb_value].
  destruct (cb_checked c); cbn [negb]; rewrite ?list_to_set_cons;
    clear Hfront Hback; set_solver.
Qed.

(** X1. On a page whose check boxes carry distinct ids and whose
    selection holds exactly the ticked rows, a click on a rendered check
    box keeps both: the selection again holds exactly the ticked rows, and
    the counter shows the number of ticked boxes. *)
Theorem toggle_row_keeps_selection_in_step (p : page) (i : nat) :
  distinct p -> synced p -> i < length (checkboxes p) ->
  let q := Shipments.toggle_row i p in
  distinct q /\ synced q
  /\ selectedCount q = Shipments.checkedBoxes q
  /\ (bulkActionsPanel q = true <-> 0 < Shipments.checkedBoxes q).
Proof.
  intros Hd Hs Hi.
  destruct (lookup_lt_is_Some_2 _ _ Hi) as [c Hc].
  destruct (toggle_row_fields p i c Hc) as (Hcb & Hsel & Hcount & Hpanel).
  cbv zeta in *.
  assert (distinct (Shipments.toggle_row i p)) as Hd'.
  { unfold distinct. rewrite Hcb, list_fmap_insert. cbn [cb_value].
    rewrite list_insert_id; [exact Hd |].
    rewrite list_lookup_fmap, Hc. reflexivity. }
  assert (synced (Shipments.toggle_row i p)) as Hs'.
  { unfold synced, checked_values. rewrite Hsel, Hcb.
    fold (checked_of (<[i:={| cb_value := cb_value c;
                              cb_checked := negb (cb_checked c) |}]>
                        (checkboxes p))).
    rewrite (checked_of_toggle _ _ _ Hc Hd).
    unfold synced, checked_values in Hs. rewrite Hs. reflexivity. }
  assert (size (selectedShipments (Shipments.toggle_row i p))
          = Shipments.checkedBoxes (Shipments.toggle_row i p)) as Hsize.
  { rewrite Hs'. unfold checked_values.
    rewrite size_list_to_set by (apply checked_of_NoDup, Hd').
    unfold Shipments.checkedBoxes. apply length_map. }
  split; [exact Hd' |]. split; [exact Hs' |].
  rewrite Hpanel, Hcount, Hsize, Nat.ltb_lt. split; [reflexivity | tauto].
Qed.

Lemma toggle_row_keeps_selection_witness :
  Shipments.checkedBoxes (Shipments.toggle_row 1 Scenario.abc_page) = 1
  /\ selectedCount (Shipments.toggle_row 1 Scenario.abc_page)
     = Shipments.checkedBoxes (Shipments.toggle_row 1 Scenario.abc_page).
Proof.
  split; [reflexivity |].
  assert (distinct Scenario.abc_page) as Hd.
  { unfold distinct. cbn. repeat constructor; set_solver. }
  assert (synced Scenario.abc_page) as Hs by reflexivity.
  assert (1 < length (checkboxes Scenario.abc_page)) as Hi by (cbn; lia).
  exact (proj1 (proj2 (proj2
    (toggle_row_keeps_selection_in_step Scenario.abc_page 1 Hd Hs Hi)))).
Defined.

(** X2. Under the same conditions, a second click on the same check box
    undoes the first: check boxes and selection are as before. *)
Theorem toggle_row_twice_restores (p : page) (i : nat) :
  distinct p -> synced p -> i < length (checkboxes p) ->
  let q := Shipments.toggle_row i (Shipments.toggle_row i p) in
  checkboxes q = checkboxes p /\ selectedShipments q = selectedShipments p.
Proof.
  intros Hd Hs Hi.
  destruct (lookup_lt_is_Some_2 _ _ Hi) as [c Hc].
  destruct (toggle_row_keeps_selection_in_step p i Hd Hs Hi)
    as (Hd1 & Hs1 & _).
  destruct (toggle_row_fields p i c Hc) as (Hcb1 & _).
  cbv zeta in *.
  set (p1 := Shipments.toggle_row i p) in *.
  set (c1 := mkCheckbox (cb_value c) (negb (cb_checked c))) in *.
  assert (checkboxes p1 !! i = Some c1) as Hc1
    by (rewrite Hcb1; apply list_lookup_insert_eq; exact Hi).
  assert (i < length (checkboxes p1)) as Hi1
    by (rewrite Hcb1, length_insert; exact Hi).
  destruct (toggle_row_keeps_selection_in_step p1 i Hd1 Hs1 Hi1)
    as (_ & Hs2 & _).
  destruct (toggle_row_fields p1 i c1 Hc1) as (Hcb2 & _).
  cbv zeta in *.
  assert (checkboxes (Shipments.toggle_row i p1) = checkboxes p) as Hcb.
  { rewrite Hcb2, Hcb1, list_insert_insert_eq.
    unfold c1. cbn [cb_value cb_checked]. rewrite negb_involutive.
    apply list_insert_id. rewrite Hc. destruct c; reflexivity. }
  split; [exact Hcb |].
  unfold synced, checked_values in Hs2, Hs. rewrite Hs2, Hs, Hcb.
  reflexivity.
Qed.

Lemma toggle_row_twice_witness :
  checkboxes (Shipments.toggle_row 0
                (Shipments.toggle_row 0 Scenario.abc_page))
  = checkboxes Scenario.abc_page.
Proof.
  assert (distinct Scenario.abc_page) as Hd.
  { unfold distinct. cbn. repeat constructor; set_solver. }
  assert (synced Scenario.abc_page) as Hs by reflexivity.
  assert (0 < length (checkboxes Scenario.abc_page)) as Hi by (cbn; lia).
  exact (proj1 (toggle_row_twice_restores Scenario.abc_page 0 Hd Hs Hi)).
Defined.

End SelectionSync.

(** ** Select all *)

Section SelectAll.
Import Dom Effect Observe.

Lemma fold_left_union_values (l : list checkbox) (s : gset string) :
  fold_left (fun acc c => acc ∪ {[cb_value c]}) l s
  = s ∪ list_to_set (map cb_value l).
Proof.
  revert s. induction l as [| c l IH]; intros s; cbn [fold_left map].
  - rewrite list_to_set_nil. set_solver.
  - rewrite IH, list_to_set_cons. set_solver.
Qed.

Lemma filter_all_checked (l : list checkbox) b :
  filter (fun c => cb_checked c = true)
    (map (fun c => mkCheckbox (cb_value c) b) l)
  = if b then map (fun c => mkCheckbox (cb_value c) true) l else [].
Proof.
  induction l as [| c l IH]; [destruct b; reflexivity |].
  cbn [map]. rewrite filter_cons. cbn [cb_checked]. destruct b.
  - rewrite decide_True by reflexivity. rewrite IH. reflexivity.
  - rewrite decide_False by discriminate. exact IH.
Qed.

(** X3. Ticking "select all" ticks every rendered box and adds every
    rendered id to the selection, keeping the ids that were selected
    before, rendered or not; if all of those were rendered, the selection
    is exactly the rendered ids and in step with the boxes. Clearing
    "select all" unticks every box and empties the selection, whatever it
    held, and hides the bulk panel. *)
Theorem handleSelectAll_selects_or_clears_all (p : page) :
  let q := Shipments.handleSelectAll true p in
  let q0 := Shipments.handleSelectAll false p in
  selectedShipments q = selectedShipments p ∪ rendered_ids p
  /\ rendered_ids q = rendered_ids p
  /\ Shipments.checkedBoxes q = Shipments.totalCheckboxes q
  /\ selectedCount q = size (selectedShipments q)
  /\ (selectedShipments p ⊆ rendered_ids p ->
      selectedShipments q = rendered_ids p /\ synced q)
  /\ selectedShipments q0 = ∅
  /\ Shipments.checkedBoxes q0 = 0
  /\ synced q0
  /\ selectedCount q0 = 0
  /\ bulkActionsPanel q0 = false.
Proof.
  cbv zeta. unfold Shipments.handleSelectAll, Shipments.updateBulkActions,
    rendered_ids, Shipments.checkedBoxes, Shipments.totalCheckboxes, synced,
    checked_values.
  cbn [selectedShipments checkboxes set_checkboxes set_selectedShipments
       set_bulkActionsPanel set_selectedCount selectedCount bulkActionsPanel].
  rewrite fold_left_union_values, !filter_all_checked, !map_map.
  cbn [cb_value map]. rewrite !length_map.
  assert (selectedShipments p ⊆ list_to_set (map cb_value (checkboxes p)) ->
          selectedShipments p ∪ list_to_set (map cb_value (checkboxes p))
          = list_to_set (map cb_value (checkboxes p))) as Hsub
    by set_solver.
  repeat split; try reflexivity.
  - apply Hsub; assumption.
  - apply Hsub; assumption.
Qed.

Lemma handleSelectAll_witness :
  selectedShipments (Shipments.handleSelectAll true Scenario.abc_page)
  = rendered_ids Scenario.abc_page.
Proof.
  assert (selectedShipments Scenario.abc_page
          ⊆ rendered_ids Scenario.abc_page) as Hsub
    by (cbn; set_solver).
  destruct (handleSelectAll_selects_or_clears_all Scenario.abc_page)
    as (_ & _ & _ & _ & H & _).
  exact (proj1 (H Hsub)).
Defined.

End SelectAll.

(** ** Every notification is dismissed in the end *)

Section Dismissal.
Import Dom Effect Observe.




Lemma tidy_set_rows rs p : tidy p -> tidy (set_rows rs p).
Proof. intros H. exact H. Qed.














End Dismissal.

(** ** The highlight of an updated row *)

Section Highlight.
Import Dom Effect Observe.












End Highlight.

(** ** The answer to a status update, in general *)

Section Answers.
Import Dom Effect Observe.

(** X6. When a pending status update is answered, exactly that request
    leaves the pending ones and exactly one notification is appended:
    [alert-success] if the server answered with success, [alert-danger]
    for every other answer and for an HTTP failure. Only a success hides
    the status modal and asks for the reload; rows and selection are not
    touched. An answer for a request that is not pending changes
    nothing. *)
Theorem resolve_gives_one_notification
    (p : page) (i : nat) (o : Shipments.outcome) (rq : request) :
  xhr p !! i = Some rq ->
  let q := Shipments.resolve i o p in
  let ok :=
    match o with
    | Shipments.Answered r => Shipments.success r
    | Shipments.Failed _ => false
    end in
  xhr q = delete i (xhr p)
  /\ S (length (xhr q)) = length (xhr p)
  /\ (exists a,
        alerts q = alerts p ++ [a]
        /\ alert_class a = if ok then "alert-success" else "alert-danger")
  /\ reload_requested q = (ok || reload_requested p)
  /\ statusUpdateModal q = (if ok then false else statusUpdateModal p)
  /\ rows q = rows p
  /\ selectedShipments q = selectedShipments p
  /\ (forall j o', length (xhr p) <= j -> Shipments.resolve j o' p = p).
Proof.
  intros Hi. cbv zeta.
  assert (S (length (delete i (xhr p))) = length (xhr p)) as Hlen.
  { rewrite length_delete by eauto.
    pose proof (lookup_lt_Some _ _ _ Hi). lia. }
  assert (forall j o', length (xhr p) <= j -> Shipments.resolve j o' p = p)
    as Hout.
  { intros j o' Hj. unfold Shipments.resolve.
    rewrite (lookup_ge_None_2 _ _ Hj). reflexivity. }
  unfold Shipments.resolve. rewrite Hi.
  destruct o as [answer | j].
  - unfold Shipments.on_success.
    destruct (Shipments.success answer);
      (split; [reflexivity |]); (split; [exact Hlen |]);
      (split; [eexists; split; reflexivity |]); repeat split; exact Hout.
  - (split; [reflexivity |]); (split; [exact Hlen |]);
      (split; [eexists; split; reflexivity |]); repeat split; exact Hout.
Qed.

Lemma resolve_gives_one_notification_witness :
  let p := Shipments.updateShipmentStatus "SHP-1001" Scenario.delivered
             Scenario.shp1001_page in
  let q := Shipments.resolve 0
             (Shipments.Answered (Shipments.mkResponse true None)) p in
  xhr q = [] /\ reload_requested q = true.
Proof.
  intros p q.
  destruct (resolve_gives_one_notification p 0
              (Shipments.Answered (Shipments.mkResponse true None))
              (mkRequest "SHP-1001" Scenario.delivered) eq_refl)
    as (Hx & _ & _ & Hr & _).
  split; [exact Hx | exact Hr].
Defined.

End Answers.

(** ** Which inbound events make a listener raise *)

Section Raising.
Import Dom Effect Observe.

(** X7. On the shipments page a listener raises in exactly these cases:
    every [location_update] event (the class has no [updateMapMarker]),
    and a [shipment_update] event without payload or without a status
    while a row of its shipment is rendered. A [location_update] event
    leaves the page exactly as it was. *)
Theorem shipments_listener_raises_iff
    (name : string) (data : option payload) (p : page) :
  (Js.threw (snd (Shipments.listener name data p)) = true
   <-> name = "location_update"
       \/ (name = "shipment_update"
           /\ (data = None
               \/ exists d, data = Some d /\ current_status d = None
                            /\ matching (shipment_id d) (rows p) <> [])))
  /\ Shipments.receive ("location_update", data) p = p.
Proof.
  split; [| reflexivity].
  unfold Shipments.listener.
  case_bool_decide as Hs; [subst name |].
  - unfold Shipments.handleRealtimeUpdate.
    destruct data as [d |].
    + destruct (matching (shipment_id d) (rows p)) as [| i row] eqn:Hm.
      * cbn. split; [discriminate |].
        intros [[=] | (_ & [[=] | (d' & [= <-] & _ & Hne)])].
        rewrite Hm in Hne. contradiction.
      * destruct (current_status d) as [st |] eqn:Hst; cbn.
        -- split; [discriminate |].
           intros [[=] | (_ & [[=] | (d' & [= <-] & Hnone & _)])].
           congruence.
        -- split; [| reflexivity]. intros _. right. split; [reflexivity |].
           right. exists d. split; [reflexivity |].
           split; [exact Hst | rewrite Hm; intros [=]].
    + cbn. split; [| reflexivity]. intros _. right. auto.
  - case_bool_decide as Hl; [subst name |]; cbn.
    + split; auto.
    + split; [discriminate |]. intros [-> | [-> _]]; contradiction.
Qed.

Lemma each_location_completion ts d p :
  snd (WebSocket.each_location ts d p)
  = match location d, ts with
    | None, _ :: _ => Js.Threw "TypeError: data.location is undefined"
    | _, _ => Js.Returned
    end.
Proof.
  revert p. induction ts as [| i rest IH]; intros p;
    cbn [WebSocket.each_location].
  - destruct (location d); reflexivity.
  - destruct (location d) as [g |] eqn:Hg; [| reflexivity].
    rewrite IH. destruct rest; reflexivity.
Qed.

Lemma updateShipmentDisplay_completion d p :
  Js.threw (snd (WebSocket.updateShipmentDisplay (Some d) p))
  = display_throws d (rows p).
Proof.
  unfold WebSocket.updateShipmentDisplay, display_throws.
  pose proof (each_row_completion (matching (shipment_id d) (rows p)) d p)
    as Hc.
  destruct (WebSocket.each_row _ d p) as [q c]. cbn [snd] in Hc. subst c.
  destruct (current_status d), (matching (shipment_id d) (rows p));
    try reflexivity;
    match goal with
    | |- context [detail_visible ?v && ?b] => destruct (detail_visible v && b)
    end; reflexivity.
Qed.

Lemma handleShipmentUpdate_completion d p :
  Js.threw (snd (WebSocket.handleShipmentUpdate (Some d) p))
  = display_throws d (rows p).
Proof.
  unfold WebSocket.handleShipmentUpdate.
  pose proof (updateShipmentDisplay_completion d
                (trigger "shipment:update" (Some d) p)) as Hc.
  destruct (WebSocket.updateShipmentDisplay _ _) as [q [| e]]; exact Hc.
Qed.

(** X8. In websocket.js no listener raises on an event whose payload
    carries what the listener reads: with a payload that has a status and
    a location, every listener returns, whatever the event and the page.
    A [driver_status_change] event never makes its listener raise, not
    even without payload; and a status event without status raises only
    if a row of its shipment is rendered. *)
Theorem websocket_listener_returns_on_complete_payload
    (name : string) (d : payload) (p : page) :
  (current_status d <> None -> location d <> None ->
   snd (WebSocket.listener name (Some d) p) = Js.Returned)
  /\ (forall data,
        snd (WebSocket.listener "driver_status_change" data p) = Js.Returned)
  /\ (Js.threw (snd (WebSocket.listener "shipment_update" (Some d) p)) = true
      <-> current_status d = None
          /\ matching (shipment_id d) (rows p) <> []).
Proof.
  split; [| split].
  - intros Hst Hloc. unfold WebSocket.listener.
    repeat case_bool_decide; try reflexivity.
    + pose proof (handleShipmentUpdate_completion d p) as Hc.
      unfold display_throws in Hc.
      destruct (current_status d); [| contradiction].
      destruct (snd (WebSocket.handleShipmentUpdate (Some d) p));
        [reflexivity | discriminate].
    + unfold WebSocket.handleLocationUpdate, WebSocket.updateLocationDisplay.
      rewrite each_location_completion.
      destruct (location d); [reflexivity | contradiction].
  - intros data. reflexivity.
  - change (WebSocket.listener "shipment_update" (Some d) p)
      with (WebSocket.handleShipmentUpdate (Some d) p).
    rewrite handleShipmentUpdate_completion. unfold display_throws.
    destruct (current_status d), (matching (shipment_id d) (rows p));
      (split;
       [intros H; try discriminate H; split; congruence
       | intros [H1 H2]; try reflexivity; congruence]).
Qed.

Lemma websocket_listener_returns_witness :
  snd (WebSocket.listener "location_update"
         (Some (mkPayload "SHP-1001" (Some "In Transit") None
                  (Some (mkGeo "51.5" "0.12" "51.5000" "0.1200"))))
         Scenario.shp1001_page)
  = Js.Returned.
Proof.
  apply (proj1 (websocket_listener_returns_on_complete_payload
                  "location_update"
                  (mkPayload "SHP-1001" (Some "In Transit") None
                     (Some (mkGeo "51.5" "0.12" "51.5000" "0.1200")))
                  Scenario.shp1001_page));
    discriminate.
Defined.

End Raising.

(** ** Emergency modals stack *)

Section Stacking.
Import Dom Effect Observe.

Lemma each_location_modals ts d p :
  modals (fst (WebSocket.each_location ts d p)) = modals p.
Proof.
  revert p. induction ts as [| i rest IH]; intros p;
    cbn [WebSocket.each_location]; [reflexivity |].
  destruct (location d) as [g |]; [| reflexivity].
  rewrite IH. reflexivity.
Qed.

Lemma handleShipmentUpdate_modals data p :
  modals (fst (WebSocket.handleShipmentUpdate data p)) = modals p.
Proof.
  unfold WebSocket.handleShipmentUpdate, WebSocket.updateShipmentDisplay.
  destruct data as [d |]; [| reflexivity].
  destruct (each_row_frame (matching (shipment_id d) (rows p)) d
              (trigger "shipment:update" (Some d) p))
    as (_ & _ & _ & Hm & _).
  cbn [rows trigger set_triggered] in *.
  destruct (WebSocket.each_row _ d _) as [q [| e]]; cbn [fst] in Hm;
    [| exact Hm].
  destruct (detail_visible (detail q) && _); exact Hm.
Qed.

Lemma receive_modals m p :
  modals (WebSocket.receive m p) = modals p ++ modals_of [m].
Proof.
  destruct m as [name data]. unfold modals_of. cbn [omap list_omap fst snd].
  unfold WebSocket.receive, WebSocket.listener. cbn [fst snd].
  case_bool_decide as H1; [subst name |].
  { rewrite bool_decide_eq_false_2 by discriminate.
    rewrite handleShipmentUpdate_modals, app_nil_r. reflexivity. }
  case_bool_decide as H2; [subst name |].
  { rewrite bool_decide_eq_false_2 by discriminate.
    unfold WebSocket.handleLocationUpdate, WebSocket.updateLocationDisplay.
    destruct data as [d |]; [rewrite each_location_modals |];
      rewrite app_nil_r; reflexivity. }
  case_bool_decide as H3; [subst name |].
  { unfold WebSocket.handleEmergencyAlert, WebSocket.showEmergencyAlert,
      WebSocket.playAlertSound.
    destruct data as [d |]; cbn [fmap option_fmap option_map];
      [| rewrite app_nil_r; reflexivity].
    cbn [fst audio trigger set_triggered set_modals].
    destruct (audio p); reflexivity. }
  case_bool_decide as H4; [rewrite app_nil_r; reflexivity |].
  case_bool_decide as H5; [| rewrite app_nil_r; reflexivity].
  destruct data; rewrite app_nil_r; reflexivity.
Qed.

(** X9. Emergency modals stack: after any sequence of inbound events the
    page holds the modals it held before followed by one modal for each
    emergency alert of the sequence, in arrival order; no other event adds,
    removes or reorders a modal. Acknowledging the first of two new
    modals leaves the second one in place. *)
Theorem emergency_modals_stack
    (ms : list (string * option payload)) (p : page) :
  modals (WebSocket.receive_all ms p) = modals p ++ modals_of ms
  /\ (forall d1 d2,
        modals
          (WebSocket.acknowledge (length (modals p))
             (WebSocket.receive_all
                [("emergency_alert", Some d1); ("emergency_alert", Some d2)]
                p))
        = modals p ++ [modal_of d2]).
Proof.
  assert (forall ms q,
             modals (WebSocket.receive_all ms q) = modals q ++ modals_of ms)
    as Hall.
  { clear. unfold WebSocket.receive_all.
    induction ms as [| m ms IH]; intros q; cbn [fold_left].
    - unfold modals_of. cbn. rewrite app_nil_r. reflexivity.
    - rewrite IH, receive_modals, <- app_assoc. f_equal.
      unfold modals_of. change (m :: ms) with ([m] ++ ms).
      rewrite omap_app. reflexivity. }
  split; [apply Hall |].
  intros d1 d2. unfold WebSocket.acknowledge. cbn [modals set_modals].
  rewrite Hall. unfold modals_of. cbn [omap list_omap fst snd].
  rewrite !bool_decide_eq_true_2 by reflexivity.
  cbn [fmap option_fmap option_map]. apply delete_middle.
Qed.

End Stacking.

(** ** Location displays *)

Section LocationDisplays.
Import Dom Effect Observe.

Lemma elem_of_matching_locations i k id ls :
  i ∈ WebSocket.matching_locations k id ls
  <-> exists l, k <= i /\ ls !! (i - k) = Some l /\ loc_id l = id.
Proof.
  revert k. induction ls as [| l ls IH]; intros k;
    cbn [WebSocket.matching_locations].
  - split; [intros H; inversion H | intros (l & _ & H & _); discriminate].
  - case_bool_decide as Hid.
    + rewrite elem_of_cons, IH. split.
      * intros [-> | (l' & Hk & Hl & Hr)].
        -- exists l. rewrite Nat.sub_diag. auto.
        -- exists l'. repeat split; [lia | | assumption].
           replace (i - k) with (S (i - S k)) by lia. exact Hl.
      * intros (l' & Hk & Hl & Hr).
        destruct (decide (i = k)) as [-> | Hne]; [left; reflexivity |].
        right. exists l'. repeat split; [lia | | assumption].
        replace (i - k) with (S (i - S k)) in Hl by lia. exact Hl.
    + rewrite IH. split.
      * intros (l' & Hk & Hl & Hr). exists l'.
        repeat split; [lia | | assumption].
        replace (i - k) with (S (i - S k)) by lia. exact Hl.
      * intros (l' & Hk & Hl & Hr).
        destruct (decide (i = k)) as [-> | Hne].
        -- rewrite Nat.sub_diag in Hl. injection Hl as ->. contradiction.
        -- exists l'. repeat split; [lia | | assumption].
           replace (i - k) with (S (i - S k)) in Hl by lia. exact Hl.
Qed.

(** With a location on board, [each_location] rewrites the displays at
    the given positions. *)
Lemma each_location_lookup ts d g p k :
  location d = Some g ->
  locations (fst (WebSocket.each_location ts d p)) !! k
  = (fun l =>
       if bool_decide (k ∈ ts)
       then mkLocationDisplay (loc_id l)
              (lat_fixed4 g +:+ ", " +:+ lng_fixed4 g)
       else l) <$> locations p !! k.
Proof.
  intros Hg. revert p. induction ts as [| i rest IH]; intros p;
    cbn [WebSocket.each_location].
  - cbn [fst]. destruct (locations p !! k); [| reflexivity]. cbn.
    rewrite bool_decide_eq_false_2; [reflexivity | apply not_elem_of_nil].
  - rewrite Hg, IH. cbn [locations set_locations].
    rewrite list_lookup_imap.
    destruct (locations p !! k) as [l |]; [| reflexivity]. cbn. f_equal.
    destruct (decide (k = i)) as [-> | Hne].
    + rewrite (bool_decide_eq_true_2 (i = i)) by reflexivity.
      rewrite (bool_decide_eq_true_2 (i ∈ i :: rest)) by left.
      case_bool_decide; reflexivity.
    + rewrite (bool_decide_eq_false_2 (k = i)) by exact Hne.
      apply (f_equal (fun b : bool => if b then _ else l)).
      apply bool_decide_ext. rewrite elem_of_cons. tauto.
Qed.

Lemma each_location_notices ts d p :
  toasts (fst (WebSocket.each_location ts d p)) = toasts p
  /\ triggered (fst (WebSocket.each_location ts d p)) = triggered p.
Proof.
  revert p. induction ts as [| i rest IH]; intros p;
    cbn [WebSocket.each_location]; [split; reflexivity |].
  destruct (location d); [| split; reflexivity].
  match goal with
  | |- context [WebSocket.each_location rest d ?q] => exact (IH q)
  end.
Qed.

(** X10. A location event rewrites exactly the location displays of its
    shipment, with latitude and longitude at four decimals, and leaves
    every other display as it is; it changes nothing else on the page but
    the broadcast. Without a location in the payload nothing at all is
    rewritten, and the listener raises only if a display of the shipment
    is there. *)
Theorem location_update_touches_only_its_displays
    (d : payload) (p : page) (k : nat) (l : location_display) :
  locations p !! k = Some l ->
  let q := fst (WebSocket.handleLocationUpdate (Some d) p) in
  (forall g, location d = Some g ->
     locations q !! k
     = Some (if bool_decide (loc_id l = shipment_id d)
             then mkLocationDisplay (loc_id l)
                    (lat_fixed4 g +:+ ", " +:+ lng_fixed4 g)
             else l))
  /\ (location d = None -> locations q = locations p)
  /\ (Js.threw (snd (WebSocket.handleLocationUpdate (Some d) p)) = true
      <-> location d = None
          /\ exists k' l', locations p !! k' = Some l'
                           /\ loc_id l' = shipment_id d)
  /\ rows q = rows p /\ toasts q = toasts p
  /\ triggered q = triggered p ++ [("location:update", Some d)].
Proof.
  intros Hk. cbv zeta.
  unfold WebSocket.handleLocationUpdate, WebSocket.updateLocationDisplay.
  set (p1 := trigger "location:update" (Some d) p).
  change (locations p1) with (locations p).
  set (ts := WebSocket.matching_locations 0 (shipment_id d) (locations p)).
  assert (forall i, i ∈ ts <-> exists l', locations p !! i = Some l'
                                          /\ loc_id l' = shipment_id d) as Hts.
  { intros i. unfold ts. rewrite elem_of_matching_locations, Nat.sub_0_r.
    split; [intros (l' & _ & H) | intros (l' & H)]; exists l';
      [exact H | split; [lia | exact H]]. }
  split; [| split; [| split; [| split; [| split]]]].
  - intros g Hg. rewrite (each_location_lookup ts d g p1 k Hg).
    change (locations p1) with (locations p). rewrite Hk. cbn. f_equal.
    apply (f_equal (fun b : bool => if b then _ else l)).
    apply bool_decide_ext. rewrite Hts. split.
    + intros (l' & Hl' & Hid). congruence.
    + intros Hid. eauto.
  - intros Hnone. destruct ts; cbn [WebSocket.each_location];
      rewrite ?Hnone; reflexivity.
  - rewrite each_location_completion.
    destruct (location d) as [g |], ts as [| i rest] eqn:Hm.
    + split; [discriminate | intros [[=] _]].
    + split; [discriminate | intros [[=] _]].
    + split; [discriminate |]. intros (_ & k' & l' & Hl').
      assert (k' ∈ ([] : list nat)) as Hin by (apply Hts; eauto).
      inversion Hin.
    + split; [| reflexivity]. intros _. split; [reflexivity |].
      assert (i ∈ i :: rest) as Hin by left.
      apply Hts in Hin as (l' & Hl'). eauto.
  - destruct (each_location_frame ts d p1) as [Hr _]. exact Hr.
  - destruct (each_location_notices ts d p1) as [Ht _]. exact Ht.
  - destruct (each_location_notices ts d p1) as [_ Ht]. exact Ht.
Qed.

Lemma location_update_witness :
  let g := mkGeo "51.5" "0.12" "51.5000" "0.1200" in
  let d := mkPayload "SHP-1001" None None (Some g) in
  let p := set_locations
             [mkLocationDisplay "SHP-1001" ""; mkLocationDisplay "SHP-1002" ""]
             Scenario.shp1001_page in
  locations (fst (WebSocket.handleLocationUpdate (Some d) p)) !! 1
  = Some (mkLocationDisplay "SHP-1002" "").
Proof.
  intros g d p.
  exact (proj1 (location_update_touches_only_its_displays d p 1
                  (mkLocationDisplay "SHP-1002" "") eq_refl) g eq_refl).
Defined.

End LocationDisplays.

(** ** A status event in websocket.js: broadcast, toast, detail view *)

Section StatusInWebSocket.
Import Dom Effect Observe.





End StatusInWebSocket.

(** ** The socket client over time *)

Section ClientRuns.
Import WebSocket Observe.

Lemma step_connected_outbound a c :
  connected c = true -> outbound a = true ->
  connected (step a c) = true
  /\ emitted (step a c) = emitted c ++ from_option (fun m => [m]) [] (message_of a).
Proof.
  intros Hc Ha. destruct a; try discriminate Ha; cbn [step keepalive_tick];
    unfold subscribeToShipment, unsubscribeFromShipment,
      requestShipmentStatus, ping; rewrite Hc; split; try exact Hc;
    reflexivity.
Qed.

(** X12. While the channel is connected, every outbound operation and
    every keep-alive tick sends exactly one message, and the messages
    leave in the order of the calls: after any run of such actions the
    client has emitted what it had emitted before followed by one message
    per action, with the event name and shipment id of that action. *)
Theorem connected_client_sends_in_order (acts : list action) (c : client) :
  connected c = true ->
  forallb outbound acts = true ->
  emitted (run acts c) = emitted c ++ omap message_of acts
  /\ connected (run acts c) = true
  /\ length (emitted (run acts c)) = length (emitted c) + length acts.
Proof.
  intros Hc Ho.
  assert (emitted (run acts c) = emitted c ++ omap message_of acts
          /\ connected (run acts c) = true
          /\ length (omap message_of acts) = length acts) as (He & Hc' & Hl).
  { revert c Hc Ho. unfold run.
    induction acts as [| a acts IH]; intros c Hc Ho; cbn [fold_left].
    - cbn. rewrite app_nil_r. auto.
    - cbn [forallb] in Ho. apply andb_prop in Ho as [Ha Ho].
      destruct (step_connected_outbound a c Hc Ha) as [Hc1 He1].
      destruct (IH (step a c) Hc1 Ho) as (He & Hc' & Hl).
      rewrite He, He1, <- app_assoc. cbn [omap list_omap].
      destruct a; try discriminate Ha; cbn; rewrite Hl; auto. }
  rewrite He, length_app, Hl. auto.
Qed.

Lemma connected_client_sends_witness :
  let c := on_socket Connect (constructor true None) in
  emitted (run [Subscribe "SHP-1001"; Tick; Unsubscribe "SHP-1001"] c)
  = [("subscribe_shipment", Some "SHP-1001"); ("ping", None);
     ("unsubscribe_shipment", Some "SHP-1001")].
Proof.
  intros c.
  exact (proj1 (connected_client_sends_in_order
                  [Subscribe "SHP-1001"; Tick; Unsubscribe "SHP-1001"] c
                  eq_refl eq_refl)).
Defined.

Lemma step_without_connect a c :
  connected c = false -> is_connect a = false ->
  connected (step a c) = false /\ emitted (step a c) = emitted c.
Proof.
  intros Hc Ha. split.
  - destruct a as [e | | | | |]; cbn [step keepalive_tick];
      unfold subscribeToShipment, unsubscribeFromShipment,
        requestShipmentStatus, ping; rewrite ?Hc; try exact Hc;
      try reflexivity.
    destruct e; try discriminate Ha; cbn [on_socket];
      unfold updateConnectionStatus;
      repeat match goal with
        | |- context [match connectionStatus ?x with _ => _ end] =>
            destruct (connectionStatus x)
        | |- context [bool_decide ?P] => destruct (bool_decide P)
        end; cbn; try exact Hc; reflexivity.
  - destruct (decide (emitted (step a c) = emitted c)) as [| Hne];
      [assumption |].
    apply step_emits_only_connected in Hne. congruence.
Qed.

(** X13. Only the socket's [connect] event enables sending. From a
    disconnected client, any run of actions without a [connect] event
    (outbound calls, keep-alive ticks, [disconnect], [reconnect] and
    error events) emits nothing and leaves the client disconnected; yet a
    [reconnect] event makes the indicator, if the page has one, read
    "Connected". *)
Theorem nothing_sent_before_connect (acts : list action) (c : client) :
  connected c = false ->
  forallb (fun a => negb (is_connect a)) acts = true ->
  emitted (run acts c) = emitted c
  /\ connected (run acts c) = false
  /\ (forall old, connectionStatus c = Some old ->
        connectionStatus (on_socket Reconnect c) = Some "Connected"
        /\ connected (on_socket Reconnect c) = false).
Proof.
  intros Hc Hn.
  assert (emitted (run acts c) = emitted c /\ connected (run acts c) = false)
    as [He Hc'].
  { revert c Hc Hn. unfold run.
    induction acts as [| a acts IH]; intros c Hc Hn; cbn [fold_left];
      [auto |].
    cbn [forallb] in Hn. apply andb_prop in Hn as [Ha Hn].
    apply negb_true_iff in Ha.
    destruct (step_without_connect a c Hc Ha) as [Hc1 He1].
    destruct (IH (step a c) Hc1 Hn) as [He Hc2].
    rewrite He, He1. auto. }
  split; [exact He |]. split; [exact Hc' |].
  intros old Hold. cbn [on_socket]. unfold updateConnectionStatus.
  cbn [connectionStatus write_log]. rewrite Hold.
  rewrite bool_decide_eq_true_2 by reflexivity. split; [reflexivity |].
  exact Hc.
Qed.

Lemma nothing_sent_before_connect_witness :
  let c := on_socket Disconnect
             (on_socket Connect (constructor true (Some ""))) in
  emitted (run [Socket Reconnect; Subscribe "SHP-1001"; Tick] c) = []
  /\ connectionStatus (on_socket Reconnect c) = Some "Connected".
Proof.
  intros c.
  destruct (nothing_sent_before_connect
              [Socket Reconnect; Subscribe "SHP-1001"; Tick] c eq_refl eq_refl)
    as (He & _ & Hi).
  split; [exact He |]. exact (proj1 (Hi "Disconnected" eq_refl)).
Defined.

Lemma step_settings a c :
  reconnectAttempts c = 0 ->
  reconnectAttempts (step a c) = 0
  /\ maxReconnectAttempts (step a c) = maxReconnectAttempts c
  /\ reconnectDelay (step a c) = reconnectDelay c
  /\ has_socket (step a c) = has_socket c.
Proof.
  intros H0.
  destruct a as [e | | | | |]; cbn [step keepalive_tick];
    unfold subscribeToShipment, unsubscribeFromShipment,
      requestShipmentStatus, ping;
    try (destruct (connected c); repeat split; exact H0).
  destruct e; cbn [on_socket]; unfold updateConnectionStatus;
    repeat match goal with
      | |- context [match connectionStatus ?x with _ => _ end] =>
          destruct (connectionStatus x)
      | |- context [bool_decide ?P] => destruct (bool_decide P)
      end; cbn; repeat split; exact H0.
Qed.

(** X14. The client's reconnect settings never move: whatever happens
    after construction, the attempt counter is 0 (no handler ever
    increments it), the bound is 5 and the delay is 1000. *)
Theorem reconnect_settings_never_change
    (acts : list action) (io_defined : bool) (indicator : option string) :
  let c := run acts (constructor io_defined indicator) in
  reconnectAttempts c = 0
  /\ maxReconnectAttempts c = 5
  /\ reconnectDelay c = 1000
  /\ has_socket c = io_defined.
Proof.
  cbv zeta.
  assert (forall c, reconnectAttempts c = 0 ->
            reconnectAttempts (run acts c) = 0
            /\ maxReconnectAttempts (run acts c) = maxReconnectAttempts c
            /\ reconnectDelay (run acts c) = reconnectDelay c
            /\ has_socket (run acts c) = has_socket c) as Hrun.
  { unfold run. induction acts as [| a acts IH]; intros c H0;
      cbn [fold_left]; [auto |].
    destruct (step_settings a c H0) as (H1 & H2 & H3 & H4).
    destruct (IH (step a c) H1) as (H5 & H6 & H7 & H8).
    rewrite H6, H7, H8. auto. }
  exact (Hrun (constructor io_defined indicator) eq_refl).
Qed.

End ClientRuns.

(** ** The debounced search handler *)

Section Debouncing.
Import Observe.
Context {A : Type}.
Variable wait : nat.





End Debouncing.

Section DebouncingExamples.
Import Observe.


End DebouncingExamples.

(** ** Events for shipments that are not rendered, and the alert sound *)

Section Unrendered.
Import Dom Effect Observe.

(** X16. A status event for a shipment without a rendered row changes
    no row and sets no highlight timer, but still notifies, and it does
    so without raising even when the payload has no status: the
    notification then reads "... updated: undefined". *)
Theorem status_event_for_unrendered_shipment (d : payload) (p : page) :
  (forall k r, rows p !! k = Some r -> row_id r <> shipment_id d) ->
  let q := fst (Shipments.handleRealtimeUpdate (Some d) p) in
  snd (Shipments.handleRealtimeUpdate (Some d) p) = Js.Returned
  /\ rows q = rows p
  /\ alerts q
     = alerts p
       ++ [mkAlert "alert-info" None
             (shipment_id d +:+ " updated: "
              +:+ match current_status d with
                  | Some st => st
                  | None => "undefined"
                  end)]
  /\ (forall u, u ∈ timers q
                <-> u = ((now p + 5000)%nat, CloseLastAlert) \/ u ∈ timers p).
Proof.
  intros Hnone. apply matching_nil_iff in Hnone. cbv zeta.
  unfold Shipments.handleRealtimeUpdate. rewrite Hnone. cbn [fst snd].
  split; [reflexivity |]. split; [reflexivity |]. split; [reflexivity |].
  intros u. apply showNotification_timer.
Qed.

Lemma status_event_for_unrendered_witness :
  let d := mkPayload "SHP-9" None None None in
  map alert_body
    (alerts (fst (Shipments.handleRealtimeUpdate (Some d)
                    Scenario.shp1001_page)))
  = ["SHP-9 updated: undefined"].
Proof.
  intros d.
  assert (forall k r, rows Scenario.shp1001_page !! k = Some r ->
                      row_id r <> shipment_id d) as Hnone.
  { intros [| [| k]] r [= <-]; discriminate. }
  destruct (status_event_for_unrendered_shipment d Scenario.shp1001_page
              Hnone) as (_ & _ & Ha & _).
  rewrite Ha. reflexivity.
Defined.

(** X17. An emergency alert with a payload is shown and broadcast
    whether or not the browser can play the sound: the listener always
    returns, the [emergency:alert] broadcast always follows the modal,
    and the sound either plays once or leaves exactly one line on the
    console, never both. *)
Theorem emergency_alert_survives_missing_sound (d : payload) (p : page) :
  let q := fst (WebSocket.handleEmergencyAlert (Some d) p) in
  snd (WebSocket.handleEmergencyAlert (Some d) p) = Js.Returned
  /\ modals q = modals p ++ [modal_of d]
  /\ triggered q = triggered p ++ [("emergency:alert", Some d)]
  /\ rows q = rows p
  /\ ((audio p = AudioPlays /\ sounds q = S (sounds p)
       /\ console q = console p)
      \/ (audio p <> AudioPlays /\ sounds q = sounds p
          /\ length (console q) = S (length (console p)))).
Proof.
  cbv zeta. unfold WebSocket.handleEmergencyAlert, WebSocket.showEmergencyAlert,
    WebSocket.playAlertSound, modal_of.
  cbn [fst snd audio trigger set_triggered set_modals].
  destruct (audio p) eqn:Ha; cbn; repeat split;
    solve [left; repeat split
          | right; repeat split;
            [discriminate | rewrite length_app; cbn; lia]].
Qed.

End Unrendered.

(** ** The dashboard settles *)

Section DashboardSettles.
Import DashboardPage.









Lemma dash_tidy_refreshKPIs p : tidy p -> tidy (refreshKPIs p).
Proof. intros H. exact H. Qed.




















End DashboardSettles.

(** ** One KPI refresh per status event *)

Section DashboardRefreshes.
Import DashboardPage.







End DashboardRefreshes.

(** ** Answers that carry no success *)

Section DashboardAnswers.
Import DashboardPage.

(** X20. When a pending GET of the dashboard ends without success (the
    request failed, or the answer says [success: false]), and for every
    answer to the shipment list request, the request leaves the pending
    ones and nothing on the page changes: texts, trend indicators, charts,
    notifications and timers stay; only a failed request writes its one
    line to the console. A successful answer to the shipment list request
    makes its callback raise, for the class has no
    [updateRecentShipments]. *)
Theorem unsuccessful_answer_changes_nothing
    (p : page) (i : nat) (e : endpoint) (o : outcome) :
  gets p !! i = Some e ->
  o = Fail \/ (exists a, o = Done a /\ success a = false) \/ e = ShipmentsApi ->
  let q := resolve i o p in
  gets q = delete i (gets p)
  /\ texts q = texts p /\ indicators q = indicators p
  /\ status_chart q = status_chart p
  /\ performance_chart q = performance_chart p
  /\ notices q = notices p /\ tasks q = tasks p /\ overlays q = overlays p
  /\ journal q
     = journal p
       ++ match o, e with
          | Fail, KpisApi => ["Failed to refresh KPIs"]
          | Fail, ShipmentsApi => ["Failed to refresh shipments"]
          | Done _, _ => []
          end
  /\ (forall a p',
        Js.threw (snd (shipments_callback (Done a) p')) = success a).
Proof.
  intros Hi Hcase. cbv zeta. unfold resolve. rewrite Hi.
  assert (forall a p',
             Js.threw (snd (shipments_callback (Done a) p')) = success a)
    as Hraise.
  { intros a p'. cbn. destruct (success a); reflexivity. }
  destruct e.
  - destruct Hcase as [-> | [(a & -> & Ha) | [=]]].
    + cbn. repeat split; exact Hraise.
    + cbn. rewrite Ha. cbn. rewrite app_nil_r. repeat split; exact Hraise.
  - destruct o as [a |].
    + cbn. destruct (success a); cbn; rewrite app_nil_r;
        repeat split; exact Hraise.
    + cbn. repeat split; exact Hraise.
Qed.

Lemma unsuccessful_answer_witness :
  let p := refreshData (loaded ∅ ∅ false false) in
  gets (resolve 0 Fail p) = [ShipmentsApi]
  /\ journal (resolve 0 Fail p) = ["Failed to refresh KPIs"].
Proof.
  intros p.
  destruct (unsuccessful_answer_changes_nothing p 0 KpisApi Fail eq_refl
              (or_introl eq_refl)) as (Hg & _ & _ & _ & _ & _ & _ & _ & Hj & _).
  split; [exact Hg | exact Hj].
Defined.

End DashboardAnswers.

(** ** KPI cards and trend indicators *)

Section DashboardCards.
Import DashboardPage.






End DashboardCards.
